(** * SDC-metrics-2019: query templates, query results and derived counts

    The repository consists of two analysis notebooks
    ([T231952-part-1.ipynb] and [sdc_usage_through_lua.ipynb]).  Their
    executable content is

    - SQL query templates held in Python string variables and filled with
      [str.format] and keyword arguments;
    - calls to [wmfdata.hive.run] and [wmfdata.mariadb.run] whose recorded
      outputs are stored in the notebooks;
    - pandas [Series] arithmetic that derives the number of pages with both
      an English and a non-English caption by inclusion-exclusion.

    This file embeds those three layers and states the properties of the
    specification against them. *)

From stdpp Require Import gmap strings list pretty.
From Stdlib Require Import ZArith Ascii.

Open Scope Z_scope.

(** ** Python outcomes *)

(** The exceptions the modelled Python code can raise. *)
Inductive exn : Type :=
  | KeyError (key : string)
  | ValueError
  | IndexError.

(** The outcome of evaluating a Python expression: a value, an exception,
    or [Unmodelled] where the embedding does not cover the construct (format
    specs, conversions, attribute and index access in replacement fields;
    float arithmetic on upcast series). *)
Inductive outcome (A : Type) : Type :=
  | Returns (a : A)
  | Raises (e : exn)
  | Unmodelled.

Arguments Returns {A} a.
Arguments Raises {A} e.
Arguments Unmodelled {A}.

#[global] Instance outcome_ret : MRet outcome := fun A a => Returns a.

#[global] Instance outcome_bind : MBind outcome := fun A B f x =>
  match x with
  | Returns a => f a
  | Raises e => Raises e
  | Unmodelled => Unmodelled
  end.

Definition returns {A : Type} (x : outcome A) : Prop := exists a, x = Returns a.
Definition raises {A : Type} (x : outcome A) : Prop := exists e, x = Raises e.

(** ** Python values passed as keyword arguments *)

Inductive pyval : Type :=
  | PStr (s : string)
  | PInt (z : Z).

(** [str(v)], which is what [format(v, '')] yields for both kinds of value. *)
Definition py_str (v : pyval) : string :=
  match v with
  | PStr s => s
  | PInt z => pretty z
  end.

(** ** [str.format] called with keyword arguments only

    The embedding follows CPython's [MarkupIterator_next], [parse_field],
    [get_integer] and [get_field_object] (Objects/stringlib/unicode_format.h):
    one left-to-right pass that alternates between literal text and
    replacement fields, looking every field up as soon as its closing brace
    is read. *)

Module PyFormat.

Definition lbrace : ascii := "{"%char.
Definition rbrace : ascii := "}"%char.

Definition PY_SSIZE_T_MAX : Z := 2 ^ 63 - 1.

Definition digitval (c : ascii) : option Z :=
  let n := Z.of_nat (nat_of_ascii c) in
  if (48 <=? n) && (n <=? 57) then Some (n - 48) else None.

(** What [get_integer] makes of the first part of a field name. *)
Inductive field_index : Type :=
  | NotInteger
  | Index (i : Z)
  | TooManyDigits.

Fixpoint get_integer_loop (accumulator : Z) (s : string) : field_index :=
  match s with
  | EmptyString => Index accumulator
  | String c rest =>
      match digitval c with
      | None => NotInteger
      | Some d =>
          if (PY_SSIZE_T_MAX - d) / 10 <? accumulator then TooManyDigits
          else get_integer_loop (accumulator * 10 + d) rest
      end
  end.

Definition get_integer (s : string) : field_index :=
  match s with
  | EmptyString => NotInteger
  | _ => get_integer_loop 0 s
  end.

(** [get_field_object] with [args = ()]: an empty or numeric field name is a
    positional index, which the empty argument tuple cannot serve; any other
    name is looked up among the keyword arguments. *)
Definition get_field_object (kwargs : gmap string pyval) (name : string)
  : outcome pyval :=
  match get_integer name with
  | TooManyDigits => Raises ValueError
  | Index _ => Raises IndexError
  | NotInteger =>
      match name with
      | EmptyString => Raises IndexError
      | _ =>
          match kwargs !! name with
          | Some v => Returns v
          | None => Raises (KeyError name)
          end
      end
  end.

(** Characters that end the plain part of a field name: conversion, format
    spec, attribute access, index access. *)
Definition starts_field_suffix (c : ascii) : bool :=
  (c =? "!")%char || (c =? ":")%char || (c =? ".")%char || (c =? "[")%char.

(** Scanner state: in literal text, or inside a replacement field whose
    name read so far is [name]. *)
Inductive mode : Type :=
  | Literal
  | Field (name : string).

Definition snoc (s : string) (c : ascii) : string := s +:+ String c EmptyString.

Fixpoint format_from (kwargs : gmap string pyval) (m : mode) (s : string)
  : outcome string :=
  match m, s with
  | Literal, EmptyString => Returns EmptyString
  | Literal, String c rest =>
      if (c =? lbrace)%char then
        match rest with
        | EmptyString => Raises ValueError
        | String c' rest' =>
            if (c' =? lbrace)%char then
              out ← format_from kwargs Literal rest'; Returns (String lbrace out)
            else format_from kwargs (Field EmptyString) rest
        end
      else if (c =? rbrace)%char then
        match rest with
        | EmptyString => Raises ValueError
        | String c' rest' =>
            if (c' =? rbrace)%char then
              out ← format_from kwargs Literal rest'; Returns (String rbrace out)
            else Raises ValueError
        end
      else out ← format_from kwargs Literal rest; Returns (String c out)
  | Field name, EmptyString => Raises ValueError
  | Field name, String c rest =>
      if (c =? rbrace)%char then
        v ← get_field_object kwargs name;
        out ← format_from kwargs Literal rest;
        Returns (py_str v +:+ out)
      else if (c =? lbrace)%char then Raises ValueError
      else if starts_field_suffix c then Unmodelled
      else format_from kwargs (Field (snoc name c)) rest
  end.

(** [template.format] applied to the keyword arguments [kwargs]. *)
Definition format (template : string) (kwargs : gmap string pyval)
  : outcome string :=
  format_from kwargs Literal template.

End PyFormat.

(** ** Placeholders as the specification describes them

    The specification speaks of [{name}]-style placeholders, of the set of
    parameter names a template references, and of filling as a single
    left-to-right pass that replaces each placeholder by the stringified
    parameter value and leaves every other character unchanged.
    [placeholders], [covers] and [fill] follow those words and are compared
    with [PyFormat.format] below; [only_named_fields] singles out the
    templates on which the two agree. *)

Module TemplateSpec.

Import PyFormat.

(** The names between an opening brace and the next closing brace, in the
    order in which they occur.  An opening brace read inside a candidate
    name restarts the candidate. *)
Fixpoint placeholders_from (m : mode) (s : string) : list string :=
  match m, s with
  | _, EmptyString => []
  | Literal, String c rest =>
      if (c =? lbrace)%char then placeholders_from (Field EmptyString) rest
      else placeholders_from Literal rest
  | Field name, String c rest =>
      if (c =? rbrace)%char then name :: placeholders_from Literal rest
      else if (c =? lbrace)%char then placeholders_from (Field EmptyString) rest
      else placeholders_from (Field (snoc name c)) rest
  end.

Definition placeholders (template : string) : list string :=
  placeholders_from Literal template.

(** A mapping covers a template when it supplies every referenced name. *)
Definition covers (kwargs : gmap string pyval) (template : string) : Prop :=
  Forall (fun name => is_Some (kwargs !! name)) (placeholders template).

(** Filling by the specification's single pass: a placeholder whose name is
    supplied becomes [py_str] of the value, everything else is copied. *)
Fixpoint fill_from (kwargs : gmap string pyval) (m : mode) (s : string) : string :=
  match m, s with
  | Literal, EmptyString => EmptyString
  | Literal, String c rest =>
      if (c =? lbrace)%char then fill_from kwargs (Field EmptyString) rest
      else String c (fill_from kwargs Literal rest)
  | Field name, EmptyString => String lbrace name
  | Field name, String c rest =>
      if (c =? rbrace)%char then
        match kwargs !! name with
        | Some v => py_str v +:+ fill_from kwargs Literal rest
        | None => String lbrace (name +:+ String rbrace (fill_from kwargs Literal rest))
        end
      else if (c =? lbrace)%char then
        String lbrace (name +:+ fill_from kwargs (Field EmptyString) rest)
      else fill_from kwargs (Field (snoc name c)) rest
  end.

Definition fill (template : string) (kwargs : gmap string pyval) : string :=
  fill_from kwargs Literal template.

(** A keyword field name: not empty and not a decimal index. *)
Definition keyword_name (name : string) : bool :=
  match name, get_integer name with
  | String _ _, NotInteger => true
  | _, _ => false
  end.

(** Templates whose every brace belongs to a [{name}] placeholder with a
    keyword name: no doubled brace, no stray brace, no conversion, format
    spec, attribute or index in a field. *)
Fixpoint only_named_fields_from (m : mode) (s : string) : bool :=
  match m, s with
  | Literal, EmptyString => true
  | Literal, String c rest =>
      if (c =? lbrace)%char then only_named_fields_from (Field EmptyString) rest
      else if (c =? rbrace)%char then false
      else only_named_fields_from Literal rest
  | Field name, EmptyString => false
  | Field name, String c rest =>
      if (c =? rbrace)%char then
        keyword_name name && only_named_fields_from Literal rest
      else if (c =? lbrace)%char then false
      else if starts_field_suffix c then false
      else only_named_fields_from (Field (snoc name c)) rest
  end.

Definition only_named_fields (template : string) : bool :=
  only_named_fields_from Literal template.

End TemplateSpec.

(** ** The query templates of the notebooks *)

Module Templates.

(** The double quote character, which the SQL texts use for string
    literals. *)
Definition dquote : string := String "034"%char EmptyString.
Definition newline : string := String "010"%char EmptyString.

Definition quoted (s : string) : string := dquote +:+ s +:+ dquote.

(** A triple-quoted Python literal whose text starts on the line after the
    opening quotes and whose closing quotes stand on a line of their own:
    a newline, then every line followed by a newline. *)
Definition template_text (lines : list string) : string :=
  newline +:+ String.concat EmptyString (map (fun l => l +:+ newline) lines).

Definition template_count_query : string :=
  template_text
    [ "SELECT count(DISTINCT tl_from) AS num_files";
      "FROM templatelinks";
      "WHERE tl_namespace = 10 -- template";
      "AND tl_title = " +:+ quoted "{template_title}";
      "AND tl_from_namespace = 6 -- only files" ].

Definition caption_count_query : string :=
  template_text
    [ "SELECT count(DISTINCT tl_from) AS num_files";
      "FROM templatelinks";
      "JOIN wbc_entity_usage";
      "ON tl_from = eu_page_id";
      "WHERE tl_namespace = 10 -- template";
      "AND tl_title = " +:+ quoted "{template_title}";
      "AND tl_from_namespace = 6 -- only files";
      "AND eu_entity_id REGEXP " +:+ quoted "^M" +:+ " -- pulling from MediaInfo";
      "AND eu_aspect REGEXP " +:+ quoted "^L" +:+ " -- pulling in a description" ].

Definition claim_query : string :=
  template_text
    [ "SELECT claim_action, claim_subaction, count(*) AS num_actions";
      "FROM (";
      "    SELECT";
      "        regexp_extract(event_comment, " +:+ quoted "^...(wb[^-]+)" +:+ ", 1) AS claim_action,";
      "        regexp_extract(event_comment, " +:+ quoted "^...wb[^-]+-([^:]+):" +:+ ", 1) AS claim_subaction";
      "    FROM wmf.mediawiki_history";
      "    WHERE snapshot = " +:+ quoted "{snapshot}";
      "    AND wiki_db = " +:+ quoted "commonswiki";
      "    AND event_entity = " +:+ quoted "revision";
      "    AND event_type = " +:+ quoted "create";
      "    AND event_timestamp >= " +:+ quoted "{start_date}";
      "    AND event_timestamp < " +:+ quoted "{end_date}";
      "    AND page_is_deleted = false -- only count live pages";
      "    AND page_namespace = 6 -- only count files";
      "    AND event_comment REGEXP " +:+ quoted "^...(wb[^-]+)-([^:]+):";
      ") AS ce";
      "GROUP BY claim_action, claim_subaction" ].

Definition nonenglish_caption_count_query : string :=
  template_text
    [ "SELECT COUNT(DISTINCT page_id) AS num_pages";
      "FROM wmf.mediawiki_history";
      "WHERE snapshot = " +:+ quoted "{snapshot}";
      "AND wiki_db = " +:+ quoted "commonswiki";
      "AND event_entity = " +:+ quoted "revision";
      "AND event_type = " +:+ quoted "create";
      "AND event_timestamp >= " +:+ quoted "{start_date}";
      "AND event_timestamp < " +:+ quoted "{end_date}";
      "AND page_is_deleted = false -- only count live pages";
      "AND page_namespace = 6 -- only count files";
      "AND event_comment REGEXP " +:+ quoted "^...wbsetlabel-add:";
      "AND regexp_extract(event_comment, " +:+ quoted "^...wbsetlabel-add:\\d.(\\w+(-\\w+)?)" +:+ ", 1)";
      "    NOT REGEXP " +:+ quoted "^simple|en|(en-.+)$" +:+ " -- not Simple English, nor English, nor any variant of English" ].

Definition english_caption_count_query : string :=
  template_text
    [ "SELECT COUNT(DISTINCT page_id) AS num_pages";
      "FROM wmf.mediawiki_history";
      "WHERE snapshot = " +:+ quoted "{snapshot}";
      "AND wiki_db = " +:+ quoted "commonswiki";
      "AND event_entity = " +:+ quoted "revision";
      "AND event_type = " +:+ quoted "create";
      "AND event_timestamp >= " +:+ quoted "{start_date}";
      "AND event_timestamp < " +:+ quoted "{end_date}";
      "AND page_is_deleted = false -- only count live pages";
      "AND page_namespace = 6 -- only count files";
      "AND event_comment REGEXP " +:+ quoted "^...wbsetlabel-add";
      "AND regexp_extract(event_comment, " +:+ quoted "^...wbsetlabel-add:\\d.(\\w+(-\\w+)?)" +:+ ", 1)";
      "    REGEXP " +:+ quoted "^simple|en|(en-.+)$" +:+ " -- Simple English, English, or any variant of English" ].

Definition all_caption_count_query : string :=
  template_text
    [ "SELECT COUNT(DISTINCT page_id) AS num_pages";
      "FROM wmf.mediawiki_history";
      "WHERE snapshot = " +:+ quoted "{snapshot}";
      "AND wiki_db = " +:+ quoted "commonswiki";
      "AND event_entity = " +:+ quoted "revision";
      "AND event_type = " +:+ quoted "create";
      "AND event_timestamp >= " +:+ quoted "{start_date}";
      "AND event_timestamp < " +:+ quoted "{end_date}";
      "AND page_is_deleted = false -- only count live pages";
      "AND page_namespace = 6 -- only count files";
      "AND event_comment REGEXP " +:+ quoted "^...wbsetlabel-add" ].

Definition time_to_caption_query : string :=
  template_text
    [ "SELECT unix_timestamp(event_timestamp) - unix_timestamp(page_creation_timestamp) AS time_to_caption";
      "FROM wmf.mediawiki_history";
      "WHERE snapshot = " +:+ quoted "{snapshot}";
      "AND wiki_db = " +:+ quoted "commonswiki";
      "AND event_entity = " +:+ quoted "revision";
      "AND event_type = " +:+ quoted "create";
      "AND event_timestamp >= " +:+ quoted "{start_date}";
      "AND event_timestamp <= " +:+ quoted "{end_date}";
      "AND page_is_deleted = false -- only count live pages";
      "AND page_namespace = 6 -- only count files";
      "AND event_comment REGEXP " +:+ quoted "^...wbsetlabel-add:";
      "AND regexp_extract(event_comment, " +:+ quoted "^...wbsetlabel-add:\\d.(\\w+(-\\w+)?)" +:+ ", 1)";
      "    NOT REGEXP " +:+ quoted "^simple|en|(en-.+)$" +:+ " -- not Simple English, nor English, nor any variant of English" ].

Definition nonenglish_first_caption_query : string :=
  template_text
    [ "SELECT page_id, MIN(event_timestamp) AS first_caption";
      "FROM wmf.mediawiki_history";
      "WHERE snapshot = " +:+ quoted "{snapshot}";
      "AND wiki_db = " +:+ quoted "commonswiki";
      "AND event_entity = " +:+ quoted "revision";
      "AND event_type = " +:+ quoted "create";
      "AND event_timestamp >= " +:+ quoted "{start_date}";
      "AND event_timestamp < " +:+ quoted "{end_date}";
      "AND page_is_deleted = false -- only count live pages";
      "AND page_namespace = 6 -- only count files";
      "AND event_comment REGEXP " +:+ quoted "^...wbsetlabel-add:";
      "AND regexp_extract(event_comment, " +:+ quoted "^...wbsetlabel-add:\\d.(\\w+(-\\w+)?)" +:+ ", 1)";
      "    NOT REGEXP " +:+ quoted "^simple|en|(en-.+)$" +:+ " -- not Simple English, nor English, nor any variant of English";
      "GROUP BY page_id" ].

(** The templates the notebooks fill with [format], by variable name. *)
Definition registered_templates : list (string * string) :=
  [ ("template_count_query", template_count_query);
    ("caption_count_query", caption_count_query);
    ("claim_query", claim_query);
    ("nonenglish_caption_count_query", nonenglish_caption_count_query);
    ("english_caption_count_query", english_caption_count_query);
    ("all_caption_count_query", all_caption_count_query);
    ("time_to_caption_query", time_to_caption_query);
    ("nonenglish_first_caption_query", nonenglish_first_caption_query) ].

(** The configuration cell of [T231952-part-1.ipynb]. *)
Definition wmf_snapshot : string := "2019-11".
Definition start_date : string := "2019-01-01".
Definition end_date : string := "2019-12-01".

End Templates.

(** ** pandas: Series, DataFrame and aligned integer arithmetic *)

Module Pandas.

Definition INT64_MIN : Z := - 2 ^ 63.
Definition INT64_MAX : Z := 2 ^ 63 - 1.

(** numpy's int64 arithmetic wraps around silently. *)
Definition wrap64 (z : Z) : Z := (z + 2 ^ 63) mod 2 ^ 64 - 2 ^ 63.

(** A Series over a RangeIndex [0 .. n-1]: either of dtype int64 with the
    given values, or a float64 Series all of whose [n] entries are NaN (what
    alignment produces when one operand has no row at all). *)
Inductive Series : Type :=
  | Int64 (values : list Z)
  | AllNaN (n : nat).

Definition series_len (s : Series) : nat :=
  match s with
  | Int64 values => length values
  | AllNaN n => n
  end.

(** [left op right] for [op] one of [+], [-] ([Series.__add__],
    [Series.__sub__]).  Operands with equal indexes are combined element by
    element in int64.  Otherwise both are reindexed to the union of the
    indexes, a missing label becomes NaN and any operation on NaN is NaN.
    Two int64 operands of different, non-zero lengths would need float64
    arithmetic on their common labels, which is not modelled. *)
Definition arith (op : Z -> Z -> Z) (left right : Series) : outcome Series :=
  match left, right with
  | Int64 xs, Int64 ys =>
      if decide (length xs = length ys) then
        Returns (Int64 (zip_with (fun x y => wrap64 (op x y)) xs ys))
      else if decide (length xs = 0%nat \/ length ys = 0%nat) then
        Returns (AllNaN (Nat.max (length xs) (length ys)))
      else Unmodelled
  | _, _ => Returns (AllNaN (Nat.max (series_len left) (series_len right)))
  end.

Definition add : Series -> Series -> outcome Series := arith Z.add.
Definition sub : Series -> Series -> outcome Series := arith Z.sub.

(** A DataFrame with integer columns, column by column, over a
    RangeIndex. *)
Record DataFrame : Type := { columns : list (string * list Z) }.

Definition n_rows (df : DataFrame) : nat :=
  match columns df with
  | [] => 0%nat
  | c :: _ => length c.2
  end.

(** [df[key]]. *)
Definition getitem (df : DataFrame) (key : string) : outcome Series :=
  match List.find (fun c => String.eqb c.1 key) (columns df) with
  | Some c => Returns (Int64 c.2)
  | None => Raises (KeyError key)
  end.

(** Row [i] as a mapping from column name to value. *)
Definition row (df : DataFrame) (i : nat) : option (list (string * Z)) :=
  mapM (fun c => v ← c.2 !! i; Some (c.1, v)) (columns df).


(** The frame a scalar count query returns: one column, one row. *)
Definition count_frame (column : string) (n : Z) : DataFrame :=
  {| columns := [(column, [n])] |}.

(** The one-row Series holding a scalar count. *)
Definition count_series (n : Z) : Series := Int64 [n].

End Pandas.

(** ** The inclusion-exclusion cell of [T231952-part-1.ipynb] *)

Module Overlap.

Import Pandas.

(** The arithmetic of the cell "Number of pages with both": the first two
    counts are added and the third is subtracted.  The notebook has no
    function for it; the name is the specification's. *)
Definition pairwise_overlap (count_a count_b count_union : Series)
  : outcome Series :=
  s ← add count_a count_b; sub s count_union.

(** The cell itself, on the three result frames. *)
Definition both_captions_cell
    (nonenglish_caption_filecount english_caption_filecount
     all_caption_filecount : DataFrame) : outcome Series :=
  a ← getitem nonenglish_caption_filecount "num_pages";
  b ← getitem english_caption_filecount "num_pages";
  s ← add a b;
  u ← getitem all_caption_filecount "num_pages";
  sub s u.

End Overlap.

(** ** The caption count queries, as functions on [wmf.mediawiki_history]

    The three [SELECT COUNT(DISTINCT page_id)] statements of
    [T231952-part-1.ipynb] are embedded as Rocq functions from the rows of
    the table to the result frame.  A [WHERE] clause keeps the rows on which
    it is true; a comparison or [REGEXP] with a NULL operand is not true.
    [event_timestamp] is a string column in the 2019 snapshots and is
    compared with the date parameters as text.  The functions take the
    parameter values themselves, which is what the bound text means as long
    as a value holds no quote and no backslash. *)

Module Hive.

Import Pandas.

(** *** The regular expressions of the queries (Java semantics, [find]) *)

Definition code (c : ascii) : nat := nat_of_ascii c.

Definition is_line_terminator (c : ascii) : bool :=
  (code c =? 10)%nat || (code c =? 13)%nat || (code c =? 133)%nat.

(** [.] *)
Definition dot (c : ascii) : bool := negb (is_line_terminator c).

(** [\d] *)
Definition digit (c : ascii) : bool := (48 <=? code c)%nat && (code c <=? 57)%nat.

(** [\w] *)
Definition word (c : ascii) : bool :=
  digit c
  || ((97 <=? code c)%nat && (code c <=? 122)%nat)
  || ((65 <=? code c)%nat && (code c <=? 90)%nat)
  || (code c =? 95)%nat.

Fixpoint strip_prefix (p s : string) : option string :=
  match p, s with
  | EmptyString, _ => Some s
  | String a p', String b s' => if (a =? b)%char then strip_prefix p' s' else None
  | String _ _, EmptyString => None
  end.

(** The longest prefix of characters satisfying [f], and what follows. *)
Fixpoint span (f : ascii -> bool) (s : string) : string * string :=
  match s with
  | EmptyString => (EmptyString, EmptyString)
  | String c rest =>
      if f c then let (run, tail) := span f rest in (String c run, tail)
      else (EmptyString, s)
  end.

Fixpoint contains (p s : string) : bool :=
  String.prefix p s
  || match s with
     | EmptyString => false
     | String _ rest => contains p rest
     end.

(** [^...] followed by the literal [lit]: what follows the match. *)
Definition after_three_then (lit : string) (s : string) : option string :=
  match s with
  | String a (String b (String c rest)) =>
      if dot a && dot b && dot c then strip_prefix lit rest else None
  | _ => None
  end.

(** [s REGEXP "^...wbsetlabel-add:"] *)
Definition rlike_label_add_colon (s : string) : bool :=
  bool_decide (is_Some (after_three_then "wbsetlabel-add:" s)).

(** [s REGEXP "^...wbsetlabel-add"] *)
Definition rlike_label_add (s : string) : bool :=
  bool_decide (is_Some (after_three_then "wbsetlabel-add" s)).

(** [regexp_extract(s, "^...wbsetlabel-add:\d.(\w+(-\w+)?)", 1)]: group 1
    of the first match, the empty string when there is none. *)
Definition regexp_extract_language (s : string) : string :=
  match after_three_then "wbsetlabel-add:" s with
  | Some (String d (String sep rest)) =>
      if digit d && dot sep then
        let (w, tail) := span word rest in
        match w, tail with
        | EmptyString, _ => EmptyString
        | _, String c tail' =>
            if (c =? "-")%char then
              let (w', _) := span word tail' in
              match w' with
              | EmptyString => w
              | _ => w +:+ String c w'
              end
            else w
        | _, EmptyString => w
        end
      else EmptyString
  | _ => EmptyString
  end.

(** [$] with nothing after it in the pattern: the end of the input, or the
    line terminator that ends the input. *)
Definition at_end (s : string) : bool :=
  match s with
  | EmptyString => true
  | String c EmptyString => is_line_terminator c
  | String c (String c' EmptyString) => (code c =? 13)%nat && (code c' =? 10)%nat
  | _ => false
  end.

(** [(en-.+)$] found somewhere in [s]. *)
Fixpoint english_variant (s : string) : bool :=
  match strip_prefix "en-" s with
  | Some tail =>
      let (run, tail') := span dot tail in
      match run with
      | EmptyString => false
      | _ => at_end tail'
      end
  | None => false
  end
  || match s with
     | EmptyString => false
     | String _ rest => english_variant rest
     end.

(** [s REGEXP "^simple|en|(en-.+)$"]: three alternatives, of which only
    the first is anchored at the start. *)
Definition rlike_english (s : string) : bool :=
  String.prefix "simple" s || contains "en" s || english_variant s.

(** *** Rows and WHERE clauses *)

(** The columns of [wmf.mediawiki_history] the queries read.
    [event_comment] and [page_id] may be NULL. *)
Record history_row : Type := {
  snapshot : string;
  wiki_db : string;
  event_entity : string;
  event_type : string;
  event_timestamp : string;
  page_is_deleted : bool;
  page_namespace : Z;
  event_comment : option string;
  page_id : option Z
}.

(** The values bound to [{snapshot}], [{start_date}] and [{end_date}]. *)
Record query_params : Type := {
  snapshot_param : string;
  start_date_param : string;
  end_date_param : string
}.

Definition comment_is (re : string -> bool) (r : history_row) : bool :=
  match event_comment r with
  | Some c => re c
  | None => false
  end.

(** The WHERE clause of [nonenglish_caption_count_query]. *)
Definition nonenglish_caption_where (p : query_params) (r : history_row) : bool :=
  String.eqb (snapshot r) (snapshot_param p)
  && String.eqb (wiki_db r) "commonswiki"
  && String.eqb (event_entity r) "revision"
  && String.eqb (event_type r) "create"
  && String.leb (start_date_param p) (event_timestamp r)
  && String.ltb (event_timestamp r) (end_date_param p)
  && negb (page_is_deleted r)
  && (page_namespace r =? 6)
  && comment_is rlike_label_add_colon r
  && comment_is (fun c => negb (rlike_english (regexp_extract_language c))) r.

(** The WHERE clause of [english_caption_count_query]. *)
Definition english_caption_where (p : query_params) (r : history_row) : bool :=
  String.eqb (snapshot r) (snapshot_param p)
  && String.eqb (wiki_db r) "commonswiki"
  && String.eqb (event_entity r) "revision"
  && String.eqb (event_type r) "create"
  && String.leb (start_date_param p) (event_timestamp r)
  && String.ltb (event_timestamp r) (end_date_param p)
  && negb (page_is_deleted r)
  && (page_namespace r =? 6)
  && comment_is rlike_label_add r
  && comment_is (fun c => rlike_english (regexp_extract_language c)) r.

(** The WHERE clause of [all_caption_count_query]. *)
Definition all_caption_where (p : query_params) (r : history_row) : bool :=
  String.eqb (snapshot r) (snapshot_param p)
  && String.eqb (wiki_db r) "commonswiki"
  && String.eqb (event_entity r) "revision"
  && String.eqb (event_type r) "create"
  && String.leb (start_date_param p) (event_timestamp r)
  && String.ltb (event_timestamp r) (end_date_param p)
  && negb (page_is_deleted r)
  && (page_namespace r =? 6)
  && comment_is rlike_label_add r.

(** *** COUNT(DISTINCT page_id) *)

(** The distinct non-NULL page ids of the rows a WHERE clause keeps. *)
Definition page_ids (where_ : history_row -> bool) (table : list history_row)
  : gset Z :=
  list_to_set (omap page_id (filter (fun r => where_ r) table)).

Definition count_distinct_page_id (where_ : history_row -> bool)
    (table : list history_row) : Z :=
  Z.of_nat (size (page_ids where_ table)).

(** [SELECT COUNT(DISTINCT page_id) AS num_pages FROM wmf.mediawiki_history
    WHERE where_]: always exactly one row. *)
Definition select_num_pages (where_ : history_row -> bool)
    (table : list history_row) : DataFrame :=
  count_frame "num_pages" (count_distinct_page_id where_ table).

Definition nonenglish_caption_filecount (p : query_params) (table : list history_row)
  : DataFrame := select_num_pages (nonenglish_caption_where p) table.

Definition english_caption_filecount (p : query_params) (table : list history_row)
  : DataFrame := select_num_pages (english_caption_where p) table.

Definition all_caption_filecount (p : query_params) (table : list history_row)
  : DataFrame := select_num_pages (all_caption_where p) table.

End Hive.

(** ** Outputs recorded in the notebooks *)

Module Recorded.

Import Pandas.

(** *** [T231952-part-1.ipynb] *)

(** Output of the cell [nonenglish_caption_filecount]. *)
Definition nonenglish_caption_filecount : DataFrame := count_frame "num_pages" 731900.

(** Output of the cell [english_caption_filecount]. *)
Definition english_caption_filecount : DataFrame := count_frame "num_pages" 776401.

(** Output of the cell [all_caption_filecount]. *)
Definition all_caption_filecount : DataFrame := count_frame "num_pages" 1365092.

(** Output of the cell "Number of pages with both" (Out[93]):
    index 0, value 143209, dtype int64. *)
Definition pages_with_both : Series := Int64 [143209].

(** *** [sdc_usage_through_lua.ipynb] *)

(** The keyword argument of the two count templates. *)
Definition template_title_is (title : string) : gmap string pyval :=
  {[ "template_title" := PStr title ]}.

(** The column the SELECT list of a count template names with [AS]:
    the word after the first " AS " of its first line. *)
Fixpoint after_AS (s : string) : option string :=
  match Hive.strip_prefix " AS " s with
  | Some alias => Some alias
  | None =>
      match s with
      | EmptyString => None
      | String _ rest => after_AS rest
      end
  end.

Definition select_alias (template : string) : option string :=
  match Hive.strip_prefix Templates.newline template with
  | Some body => after_AS (Hive.span (fun c => negb (Hive.code c =? 10)%nat) body).1
  | None => None
  end.

End Recorded.

(** ** Inputs used in the examples below *)

Module Scenario.

Import Pandas Hive.

(** The keyword arguments every [hive.run] cell passes to [format]: the
    values of the configuration cell. *)
Definition configured_kwargs : gmap string pyval :=
  {[ "snapshot" := PStr Templates.wmf_snapshot;
     "start_date" := PStr Templates.start_date;
     "end_date" := PStr Templates.end_date ]}.

Definition configured_params : query_params :=
  {| snapshot_param := Templates.wmf_snapshot;
     start_date_param := Templates.start_date;
     end_date_param := Templates.end_date |}.

(** A caption edit of May 2019 on a live file page. *)
Definition caption_edit (comment : string) (page : Z) : history_row :=
  {| snapshot := "2019-11";
     wiki_db := "commonswiki";
     event_entity := "revision";
     event_type := "create";
     event_timestamp := "2019-05-01 10:00:00.0";
     page_is_deleted := false;
     page_namespace := 6;
     event_comment := Some comment;
     page_id := Some page |}.

(** Three pages: page 1 gets an English and a German caption, page 2 a
    German one, page 3 a British English one. *)
Definition captioned_pages : list history_row :=
  [ caption_edit "/* wbsetlabel-add:1|en */ Town hall" 1;
    caption_edit "/* wbsetlabel-add:1|de */ Rathaus" 1;
    caption_edit "/* wbsetlabel-add:1|de */ Fotografie." 2;
    caption_edit "/* wbsetlabel-add:1|en-gb */ Harbour" 3 ].

(** One edit whose comment has no colon after [wbsetlabel-add]. *)
Definition comment_without_colon : list history_row :=
  [ caption_edit "/* wbsetlabel-add */ caption" 7 ].

(** A scalar count result with the given rows in its [num_pages] column;
    [num_pages_frame []] is the zero-row result. *)
Definition num_pages_frame (values : list Z) : DataFrame :=
  {| columns := [("num_pages", values)] |}.

End Scenario.

(** ** The lines of a query text *)

Module QueryText.

Fixpoint split_lines_from (line : string) (s : string) : list string :=
  match s with
  | EmptyString => [line]
  | String c rest =>
      if (Hive.code c =? 10)%nat then line :: split_lines_from EmptyString rest
      else split_lines_from (PyFormat.snoc line c) rest
  end.

(** [s.split('\n')]. *)
Definition split_lines (s : string) : list string :=
  split_lines_from EmptyString s.

Fixpoint drop_until (f : string -> bool) (l : list string) : list string :=
  match l with
  | [] => []
  | x :: rest => if f x then l else drop_until f rest
  end.

Fixpoint take_until (f : string -> bool) (l : list string) : list string :=
  match l with
  | [] => []
  | x :: rest => if f x then [] else x :: take_until f rest
  end.

(** The lines of the WHERE clause: from the line that starts with
    [WHERE] on, without the empty piece after the last newline. *)
Definition where_lines (template : string) : list string :=
  List.filter (fun l => negb (String.eqb l EmptyString))
    (drop_until (String.prefix "WHERE") (split_lines template)).

(** The lines of the WHERE clause that test [event_comment] itself. *)
Definition event_comment_lines (template : string) : list string :=
  List.filter (String.prefix "AND event_comment REGEXP") (where_lines template).

(** The WHERE lines that precede the tests of [event_comment]: snapshot,
    wiki, entity and type of event, date range, deletion flag and
    namespace. *)
Definition filter_lines (template : string) : list string :=
  take_until (String.prefix "AND event_comment") (where_lines template).

End QueryText.

(** ** Character classes of texts *)

Module Text.

Import PyFormat.

Fixpoint string_forall (f : ascii -> bool) (s : string) : bool :=
  match s with
  | EmptyString => true
  | String c rest => f c && string_forall f rest
  end.

(** Neither brace. *)
Definition not_brace (c : ascii) : bool :=
  negb (c =? lbrace)%char && negb (c =? rbrace)%char.

(** A decimal digit, as [get_integer] reads it. *)
Definition decimal (c : ascii) : bool :=
  match digitval c with
  | Some _ => true
  | None => false
  end.

(** [[^-]] and [[^:]] *)
Definition not_dash (c : ascii) : bool := negb (c =? "-")%char.
Definition not_colon (c : ascii) : bool := negb (c =? ":")%char.

(** A character of a language code: [\w] or the dash. *)
Definition word_or_dash (c : ascii) : bool := Hive.word c || (c =? "-")%char.

(** A character that stands for itself between the double quotes of an SQL
    string literal: neither the double quote (code 34), which ends the
    literal, nor the backslash (code 92), which starts an escape. *)
Definition literal_char (c : ascii) : bool :=
  negb (Hive.code c =? 34)%nat && negb (Hive.code c =? 92)%nat.

(** Parameter values for which the text bound from a template means what
    the WHERE functions compute: every value is made of [literal_char]s. *)
Definition literal_params (p : Hive.query_params) : bool :=
  string_forall literal_char (Hive.snapshot_param p)
  && string_forall literal_char (Hive.start_date_param p)
  && string_forall literal_char (Hive.end_date_param p).

(** Templates that [format] reads within the embedding: the scan of
    [format_from] never meets, inside a replacement field, a character that
    starts a conversion, a format spec, an attribute or an index.  What
    follows a brace on which [format_from] raises is not read. *)
Fixpoint plain_fields_from (m : mode) (s : string) : bool :=
  match m, s with
  | _, EmptyString => true
  | Literal, String c rest =>
      if (c =? lbrace)%char then
        match rest with
        | EmptyString => true
        | String c' rest' =>
            if (c' =? lbrace)%char then plain_fields_from Literal rest'
            else plain_fields_from (Field EmptyString) rest
        end
      else if (c =? rbrace)%char then
        match rest with
        | EmptyString => true
        | String c' rest' =>
            if (c' =? rbrace)%char then plain_fields_from Literal rest'
            else true
        end
      else plain_fields_from Literal rest
  | Field name, String c rest =>
      if (c =? rbrace)%char then plain_fields_from Literal rest
      else if (c =? lbrace)%char then true
      else if starts_field_suffix c then false
      else plain_fields_from (Field (snoc name c)) rest
  end.

Definition plain_fields (template : string) : bool :=
  plain_fields_from Literal template.

End Text.

(** ** [template_count_query] on the row store

    The statement bound from [template_count_query] is embedded as a
    function from the rows of [templatelinks] to the frame that
    [mariadb.run] returns.  The four columns read are NOT NULL; [tl_title]
    is a binary string, compared byte by byte.  The function takes the
    title itself, which is what the bound text means as long as the title
    holds no double quote and no backslash; for other titles the run is
    [Unmodelled]. *)

Module TemplateLinks.

Import Pandas Text.

Record templatelinks_row : Type := {
  tl_from : Z;
  tl_from_namespace : Z;
  tl_namespace : Z;
  tl_title : string
}.

(** The WHERE clause of the bound text. *)
Definition template_count_where (title : string) (r : templatelinks_row) : bool :=
  (tl_namespace r =? 10)
  && String.eqb (tl_title r) title
  && (tl_from_namespace r =? 6).

(** The pages the rows kept by the WHERE clause link from. *)
Definition files_with_template (title : string) (table : list templatelinks_row)
  : gset Z :=
  list_to_set (map tl_from (filter (fun r => template_count_where title r) table)).

(** [count(DISTINCT tl_from)] *)
Definition count_distinct_tl_from (title : string) (table : list templatelinks_row)
  : Z :=
  Z.of_nat (size (files_with_template title table)).

(** [mariadb.run(template_count_query.format(template_title = title),
    'commonswiki')] on a replica whose [templatelinks] holds [table]: one
    row with the count, in the column that the SELECT list of the bound text
    names. *)
Definition template_count_run (title : string) (table : list templatelinks_row)
  : outcome DataFrame :=
  sql ← PyFormat.format Templates.template_count_query
          (Recorded.template_title_is title);
  if string_forall literal_char title then
    match Recorded.select_alias sql with
    | Some column => Returns (count_frame column (count_distinct_tl_from title table))
    | None => Unmodelled
    end
  else Unmodelled.

End TemplateLinks.

(** ** The queries the notebooks run without filling *)

Module PlainQueries.

Import Templates.

Definition title_template_query : string :=
  template_text
    [ "SELECT count(*), SUM(IF(eu_page_id IS NOT NULL, 1, 0)) AS num_with_title";
      "FROM templatelinks";
      "LEFT JOIN wbc_entity_usage";
      "ON tl_from = eu_page_id";
      "WHERE tl_from_namespace = 6";
      "AND tl_namespace = 10";
      "AND tl_title = " +:+ quoted "Artwork";
      "AND eu_entity_id REGEXP " +:+ quoted "^M";
      "AND eu_aspect = " +:+ quoted "T" ].

Definition caption_query : string :=
  template_text
    [ "SELECT";
      "  SUM(IF(event_comment REGEXP " +:+ quoted "^...wbsetlabel-add" +:+ ", 1, 0)) AS num_adds,";
      "  SUM(IF(event_comment REGEXP " +:+ quoted "^...wbsetlabel-set" +:+ ", 1, 0)) AS num_mods,";
      "  SUM(IF(event_comment REGEXP " +:+ quoted "^...wbsetlabel-remove" +:+ ", 1, 0)) AS num_dels";
      "FROM wmf.mediawiki_history";
      "WHERE snapshot = " +:+ quoted "2019-10";
      "AND wiki_db = " +:+ quoted "commonswiki";
      "AND event_entity = " +:+ quoted "revision";
      "AND event_type = " +:+ quoted "create";
      "AND event_timestamp >= " +:+ quoted "2019-01-01";
      "AND event_comment REGEXP " +:+ quoted "^...wbsetlabel-(add|set|remove):" ].

Definition bot_caption_add_query : string :=
  template_text
    [ "SELECT";
      "  SUM(IF(size(event_user_is_bot_by_historical) > 0, 1, 0)) AS num_bot_edits,";
      "  SUM(IF(size(event_user_is_bot_by_historical) = 0, 1, 0)) AS num_nonbot_edits,";
      "  SUM(IF(size(event_user_is_bot_by) > 0, 1, 0)) AS num_current_bot_edits";
      "FROM wmf.mediawiki_history";
      "WHERE snapshot = " +:+ quoted "2019-10";
      "AND wiki_db = " +:+ quoted "commonswiki";
      "AND event_entity = " +:+ quoted "revision";
      "AND event_type = " +:+ quoted "create";
      "AND event_timestamp >= " +:+ quoted "2019-01-01";
      "AND event_comment REGEXP " +:+ quoted "^...wbsetlabel-add:" ].

End PlainQueries.

(** ** [time_to_caption_query] *)

Module TimeToCaption.

Import Hive.

(** The WHERE clause of [time_to_caption_query]: the one of the
    non-English count, with [<=] in place of [<] on the end date. *)
Definition time_to_caption_where (p : query_params) (r : history_row) : bool :=
  String.eqb (snapshot r) (snapshot_param p)
  && String.eqb (wiki_db r) "commonswiki"
  && String.eqb (event_entity r) "revision"
  && String.eqb (event_type r) "create"
  && String.leb (start_date_param p) (event_timestamp r)
  && String.leb (event_timestamp r) (end_date_param p)
  && negb (page_is_deleted r)
  && (page_namespace r =? 6)
  && comment_is rlike_label_add_colon r
  && comment_is (fun c => negb (rlike_english (regexp_extract_language c))) r.

End TimeToCaption.

(** ** [nonenglish_first_caption_query] and the quarterly counts *)

Module FirstCaption.

Import Hive.

(** The smaller of two texts in the order of [<] on strings. *)
Definition min_string (a b : string) : string := if String.ltb b a then b else a.

(** [MIN] over the texts of a group. *)
Definition MIN (l : list string) : string :=
  match l with
  | [] => EmptyString
  | x :: rest => foldr min_string x rest
  end.

(** [SELECT page_id, MIN(event_timestamp) AS first_caption ... GROUP BY
    page_id] under the WHERE clause of the non-English count: one row per
    distinct [page_id] of the kept rows, NULL included, here in the order
    in which the page ids first occur. *)
Definition nonenglish_first_captions (p : query_params) (table : list history_row)
  : list (option Z * string) :=
  let kept := filter (fun r => nonenglish_caption_where p r) table in
  map (fun k =>
         (k, MIN (map event_timestamp (filter (fun r => page_id r = k) kept))))
    (remove_dups (map page_id kept)).

(** [len(df.loc[df['first_caption_ts'] < cutoff])], where the column
    [first_caption_ts] is [pd.to_datetime] of [first_caption].  The
    conversion is a parameter: the value it gives a timestamp text. *)
Definition captioned_before (to_datetime : string -> Z) (cutoff : Z)
    (df : list (option Z * string)) : nat :=
  length (filter (fun row => to_datetime row.2 < cutoff) df).

End FirstCaption.

(** ** [claim_query] *)

Module ClaimActions.

Import Hive Text.

(** [regexp_extract(s, "^...(wb[^-]+)", 1)] *)
Definition claim_action (s : string) : string :=
  match after_three_then "wb" s with
  | Some rest =>
      match span not_dash rest with
      | (EmptyString, _) => EmptyString
      | (run, _) => "wb" +:+ run
      end
  | None => EmptyString
  end.

(** Group 1 of the match of ["^...wb[^-]+-([^:]+):"], if there is one. *)
Definition subaction_match (s : string) : option string :=
  match after_three_then "wb" s with
  | Some rest =>
      match span not_dash rest with
      | (String _ _, String dash tail) =>
          if (dash =? "-")%char then
            match span not_colon tail with
            | (String c sub, String colon _) =>
                if (colon =? ":")%char then Some (String c sub) else None
            | _ => None
            end
          else None
      | _ => None
      end
  | None => None
  end.

(** [regexp_extract(s, "^...wb[^-]+-([^:]+):", 1)] *)
Definition claim_subaction (s : string) : string :=
  default EmptyString (subaction_match s).

(** [s REGEXP "^...(wb[^-]+)-([^:]+):"] *)
Definition rlike_claim (s : string) : bool :=
  bool_decide (is_Some (subaction_match s)).

(** The WHERE clause of the inner SELECT of [claim_query]. *)
Definition claim_where (p : query_params) (r : history_row) : bool :=
  String.eqb (snapshot r) (snapshot_param p)
  && String.eqb (wiki_db r) "commonswiki"
  && String.eqb (event_entity r) "revision"
  && String.eqb (event_type r) "create"
  && String.leb (start_date_param p) (event_timestamp r)
  && String.ltb (event_timestamp r) (end_date_param p)
  && negb (page_is_deleted r)
  && (page_namespace r =? 6)
  && comment_is rlike_claim r.

(** The two columns of the inner SELECT. *)
Definition claim_key (r : history_row) : string * string :=
  match event_comment r with
  | Some c => (claim_action c, claim_subaction c)
  | None => (EmptyString, EmptyString)
  end.

(** The outer SELECT with its GROUP BY: one row per distinct pair of
    action and subaction, with the number of kept rows that have it. *)
Definition claim_counts (p : query_params) (table : list history_row)
  : list (string * string * Z) :=
  let kept := filter (fun r => claim_where p r) table in
  map (fun k => (k.1, k.2,
                 Z.of_nat (length (filter (fun r => claim_key r = k) kept))))
    (remove_dups (map claim_key kept)).

End ClaimActions.

(** ** [caption_query] and [bot_caption_add_query] *)

Module CaptionEdits.

Import Hive.

(** A row of [wmf.mediawiki_history] with the two array columns that
    [bot_caption_add_query] reads; an array may be NULL. *)
Record edit_row : Type := {
  base : history_row;
  event_user_is_bot_by_historical : option (list string);
  event_user_is_bot_by : option (list string)
}.

(** Hive's [size]: the number of elements, -1 for NULL. *)
Definition hive_size (a : option (list string)) : Z :=
  match a with
  | Some l => Z.of_nat (length l)
  | None => -1
  end.

(** [s REGEXP "^...wbsetlabel-set"] and [s REGEXP "^...wbsetlabel-remove"] *)
Definition rlike_label_set (s : string) : bool :=
  bool_decide (is_Some (after_three_then "wbsetlabel-set" s)).

Definition rlike_label_remove (s : string) : bool :=
  bool_decide (is_Some (after_three_then "wbsetlabel-remove" s)).

(** [s REGEXP "^...wbsetlabel-(add|set|remove):"] *)
Definition rlike_label_change (s : string) : bool :=
  match after_three_then "wbsetlabel-" s with
  | Some rest =>
      bool_decide (is_Some (strip_prefix "add:" rest))
      || bool_decide (is_Some (strip_prefix "set:" rest))
      || bool_decide (is_Some (strip_prefix "remove:" rest))
  | None => false
  end.

(** The WHERE clause of [caption_query]. *)
Definition caption_where (r : history_row) : bool :=
  String.eqb (snapshot r) "2019-10"
  && String.eqb (wiki_db r) "commonswiki"
  && String.eqb (event_entity r) "revision"
  && String.eqb (event_type r) "create"
  && String.leb "2019-01-01" (event_timestamp r)
  && comment_is rlike_label_change r.

(** The WHERE clause of [bot_caption_add_query]. *)
Definition bot_caption_add_where (r : history_row) : bool :=
  String.eqb (snapshot r) "2019-10"
  && String.eqb (wiki_db r) "commonswiki"
  && String.eqb (event_entity r) "revision"
  && String.eqb (event_type r) "create"
  && String.leb "2019-01-01" (event_timestamp r)
  && comment_is rlike_label_add_colon r.

(** [SUM(IF(cond, 1, 0))] over the kept rows: NULL when no row is kept. *)
Definition sum_if {A : Type} (cond : A -> bool) (kept : list A) : option Z :=
  match kept with
  | [] => None
  | _ => Some (Z.of_nat (length (filter (fun r => cond r) kept)))
  end.

(** The row [caption_query] returns: [num_adds], [num_mods], [num_dels]. *)
Definition label_counts (table : list edit_row) : option Z * option Z * option Z :=
  let kept := filter (fun r => caption_where (base r)) table in
  (sum_if (fun r => comment_is rlike_label_add (base r)) kept,
   sum_if (fun r => comment_is rlike_label_set (base r)) kept,
   sum_if (fun r => comment_is rlike_label_remove (base r)) kept).

(** The row [bot_caption_add_query] returns: [num_bot_edits],
    [num_nonbot_edits], [num_current_bot_edits]. *)
Definition botadded_captions_counts (table : list edit_row)
  : option Z * option Z * option Z :=
  let kept := filter (fun r => bot_caption_add_where (base r)) table in
  (sum_if (fun r => 0 <? hive_size (event_user_is_bot_by_historical r)) kept,
   sum_if (fun r => hive_size (event_user_is_bot_by_historical r) =? 0) kept,
   sum_if (fun r => 0 <? hive_size (event_user_is_bot_by r)) kept).

End CaptionEdits.

(** ** The bug-checking query of [T231952-part-1.ipynb] *)

Module BugCheck.

Import Hive Templates.

(** The text the bug-checking cell fills and runs. *)
Definition bug_check_query : string :=
  template_text
    [ "SELECT event_comment";
      "FROM wmf.mediawiki_history";
      "WHERE snapshot = " +:+ quoted "{snapshot}";
      "AND wiki_db = " +:+ quoted "commonswiki";
      "AND event_entity = " +:+ quoted "revision";
      "AND event_type = " +:+ quoted "create";
      "AND event_timestamp >= " +:+ quoted "{start_date}";
      "AND event_timestamp < " +:+ quoted "{end_date}";
      "AND page_is_deleted = false -- only count live pages";
      "AND page_namespace = 6 -- only count files";
      "AND event_comment REGEXP " +:+ quoted "^...wbsetlabel-add:";
      "AND regexp_extract(event_comment, " +:+ quoted "^...wbsetlabel-add:\\d.(\\w+(-\\w+)?)" +:+ ", 1)";
      "    NOT IN (" +:+ quoted "simple" +:+ ", " +:+ quoted "en" +:+ ")";
      "LIMIT 250" ].

(** [lang NOT IN ("simple", "en")] *)
Definition not_in_simple_en (lang : string) : bool :=
  negb (String.eqb lang "simple" || String.eqb lang "en").

(** The WHERE clause of [bug_check_query]; which 250 of the kept rows the
    query returns is not fixed by its text. *)
Definition bug_check_where (p : query_params) (r : history_row) : bool :=
  String.eqb (snapshot r) (snapshot_param p)
  && String.eqb (wiki_db r) "commonswiki"
  && String.eqb (event_entity r) "revision"
  && String.eqb (event_type r) "create"
  && String.leb (start_date_param p) (event_timestamp r)
  && String.ltb (event_timestamp r) (end_date_param p)
  && negb (page_is_deleted r)
  && (page_namespace r =? 6)
  && comment_is rlike_label_add_colon r
  && comment_is (fun c => not_in_simple_en (regexp_extract_language c)) r.

End BugCheck.

(** ** Further inputs for the examples *)

Module Samples.

Import Pandas Hive Scenario CaptionEdits.

(** The decimal digits of a text read as one number; it orders timestamps
    of one format as time does. *)
Definition digits_value (s : string) : Z :=
  (fix go (acc : Z) (s : string) : Z :=
     match s with
     | EmptyString => acc
     | String c rest =>
         match PyFormat.digitval c with
         | Some d => go (acc * 10 + d) rest
         | None => go acc rest
         end
     end) 0 s.

Definition edit_at (timestamp comment : string) (page : option Z) : history_row :=
  {| snapshot := "2019-11";
     wiki_db := "commonswiki";
     event_entity := "revision";
     event_type := "create";
     event_timestamp := timestamp;
     page_is_deleted := false;
     page_namespace := 6;
     event_comment := Some comment;
     page_id := page |}.

(** Page 1 gets a German caption in February and a French one in May,
    page 2 a German one in June, and one edit has no page id. *)
Definition dated_edits : list history_row :=
  [ edit_at "2019-05-02 08:00:00.0" "/* wbsetlabel-add:1|fr */ Mairie" (Some 1);
    edit_at "2019-02-11 17:30:00.0" "/* wbsetlabel-add:1|de */ Rathaus" (Some 1);
    edit_at "2019-06-20 09:15:00.0" "/* wbsetlabel-add:1|de */ Hafen" (Some 2);
    edit_at "2019-03-01 12:00:00.0" "/* wbsetlabel-add:1|nl */ Haven" None ].

(** The ends of the first two quarters, as [digits_value] reads them. *)
Definition end_of_Q1 : Z := digits_value "2019-04-01 00:00:00.0".
Definition end_of_Q2 : Z := digits_value "2019-07-01 00:00:00.0".


(** An edit of May 2019 in the 2019-10 snapshot with the given comment;
    both bot arrays hold [historical]. *)
Definition logged_edit (comment : string) (historical : option (list string))
  : edit_row :=
  {| base := {| snapshot := "2019-10";
                wiki_db := "commonswiki";
                event_entity := "revision";
                event_type := "create";
                event_timestamp := "2019-05-01 10:00:00.0";
                page_is_deleted := false;
                page_namespace := 6;
                event_comment := Some comment;
                page_id := Some 1 |};
     event_user_is_bot_by_historical := historical;
     event_user_is_bot_by := historical |}.

(** Three added captions (by a bot, by a person, and one whose array is
    NULL), one changed and one removed caption. *)
Definition logged_edits : list edit_row :=
  [ logged_edit "/* wbsetlabel-add:1|en */ Town hall" (Some ["group"]);
    logged_edit "/* wbsetlabel-add:1|de */ Rathaus" (Some []);
    logged_edit "/* wbsetlabel-add:1|fr */ Mairie" None;
    logged_edit "/* wbsetlabel-set:1|en */ City hall" (Some []);
    logged_edit "/* wbsetlabel-remove:1|fr */" (Some []) ].

End Samples.

(** * Properties of template filling *)

Import PyFormat TemplateSpec Scenario.

Lemma get_field_object_keyword (kwargs : gmap string pyval) (name : string) :
  keyword_name name = true ->
  get_field_object kwargs name =
    match kwargs !! name with
    | Some v => Returns v
    | None => Raises (KeyError name)
    end.
Proof.
  unfold keyword_name, get_field_object.
  destruct name as [|c name]; [discriminate|].
  destruct (get_integer (String c name)); (discriminate || reflexivity).
Qed.

(** On a template with named fields only, the scanner of [format] either
    meets supplied names throughout and yields the specification's filling,
    or stops at a referenced name that is not supplied. *)
Lemma format_from_named (kwargs : gmap string pyval) (s : string) :
  forall m,
    only_named_fields_from m s = true ->
    (Forall (fun name => is_Some (kwargs !! name)) (placeholders_from m s)
     /\ format_from kwargs m s = Returns (fill_from kwargs m s))
    \/ (exists name,
          name ∈ placeholders_from m s /\ kwargs !! name = None
          /\ format_from kwargs m s = Raises (KeyError name)).
Proof.
  induction s as [|c rest IH]; intros [|name] Hplain; simpl in Hplain |- *.
  - left. split; [constructor | reflexivity].
  - discriminate.
  - destruct (Ascii.eqb c lbrace) eqn:Hl.
    + destruct rest as [|c' rest']; [discriminate|].
      destruct (Ascii.eqb c' lbrace) eqn:Hl'.
      * simpl in Hplain. rewrite Hl' in Hplain.
        destruct (Ascii.eqb c' rbrace); discriminate.
      * apply (IH (Field EmptyString)), Hplain.
    + destruct (Ascii.eqb c rbrace) eqn:Hr; [discriminate|].
      destruct (IH Literal Hplain) as [[Hall Hfmt] | (n & Hin & Hnone & Hfmt)].
      * left. split; [exact Hall|]. rewrite Hfmt. reflexivity.
      * right. exists n. repeat split; try assumption. rewrite Hfmt. reflexivity.
  - destruct (Ascii.eqb c rbrace) eqn:Hr.
    + apply andb_prop in Hplain as [Hkw Hrest].
      rewrite (get_field_object_keyword _ _ Hkw).
      destruct (kwargs !! name) as [v|] eqn:Hlook.
      * destruct (IH Literal Hrest) as [[Hall Hfmt] | (n & Hin & Hnone & Hfmt)].
        -- left. split.
           ++ constructor; [rewrite Hlook; eauto | exact Hall].
           ++ simpl. rewrite Hfmt. reflexivity.
        -- right. exists n. split; [right; exact Hin|]. split; [exact Hnone|].
           simpl. rewrite Hfmt. reflexivity.
      * right. exists name. split; [left|]. split; [exact Hlook | reflexivity].
    + destruct (Ascii.eqb c lbrace) eqn:Hl; [discriminate|].
      destruct (starts_field_suffix c); [discriminate|].
      apply (IH (Field (snoc name c))), Hplain.
Qed.

Lemma format_named (template : string) (kwargs : gmap string pyval) :
  only_named_fields template = true ->
  (covers kwargs template /\ format template kwargs = Returns (fill template kwargs))
  \/ (exists name,
        name ∈ placeholders template /\ kwargs !! name = None
        /\ format template kwargs = Raises (KeyError name)).
Proof. apply format_from_named. Qed.

Lemma not_covers_missing (template : string) (kwargs : gmap string pyval) (name : string) :
  name ∈ placeholders template -> kwargs !! name = None -> ~ covers kwargs template.
Proof.
  intros Hin Hnone Hcov.
  unfold covers in Hcov. rewrite Forall_forall in Hcov.
  destruct (Hcov name Hin) as [v Hv]. congruence.
Qed.

Lemma registered_templates_only_named_fields :
  Forall (fun t => only_named_fields t.2 = true) Templates.registered_templates.
Proof. repeat (constructor; [vm_compute; reflexivity|]). constructor. Qed.

(** C3.  For every template the notebooks fill, and every mapping of
    parameter names to values, [format] returns exactly when the mapping
    supplies every placeholder the template text references; when some
    referenced placeholder is not supplied, [format] raises the exception
    that carries the name of such a placeholder ([KeyError], which is what
    Python raises for a missing parameter). *)
Theorem format_registered_template
    (name template : string) (kwargs : gmap string pyval) :
  (name, template) ∈ Templates.registered_templates ->
  (returns (format template kwargs) <-> covers kwargs template)
  /\ (~ covers kwargs template ->
      exists missing,
        missing ∈ placeholders template /\ kwargs !! missing = None
        /\ format template kwargs = Raises (KeyError missing)).
Proof.
  intros Hreg.
  pose proof registered_templates_only_named_fields as Hall.
  rewrite Forall_forall in Hall. specialize (Hall _ Hreg). simpl in Hall.
  destruct (format_named template kwargs Hall)
    as [[Hcov Hfmt] | (n & Hin & Hnone & Hfmt)].
  - split; [|tauto]. split; [tauto|]. intros _. eexists. exact Hfmt.
  - pose proof (not_covers_missing _ _ _ Hin Hnone) as Hnot.
    split.
    + split; [|tauto]. intros [out Hout]. congruence.
    + intros _. exists n. auto.
Qed.

Lemma format_registered_template_witness :
  (returns (format Templates.claim_query configured_kwargs)
   <-> covers configured_kwargs Templates.claim_query)
  /\ (~ covers configured_kwargs Templates.claim_query ->
      exists missing,
        missing ∈ placeholders Templates.claim_query
        /\ configured_kwargs !! missing = None
        /\ format Templates.claim_query configured_kwargs = Raises (KeyError missing)).
Proof.
  apply (format_registered_template "claim_query").
  do 2 apply list_elem_of_further. apply list_elem_of_here.
Defined.

(** With the end date left out, filling [claim_query] names [end_date]. *)
Example claim_query_without_end_date :
  format Templates.claim_query
    {[ "snapshot" := PStr Templates.wmf_snapshot;
       "start_date" := PStr Templates.start_date ]}
  = Raises (KeyError "end_date").
Proof. vm_compute. reflexivity. Qed.

(** A template that references only the two dates, filled with the start
    date alone. *)
Example date_range_without_end_date :
  format "ts >= {start_date} AND ts < {end_date}"
    {[ "start_date" := PStr Templates.start_date ]}
  = Raises (KeyError "end_date").
Proof. vm_compute. reflexivity. Qed.

(** C5.  On every template whose braces all belong to [{name}]
    placeholders with keyword names, and every mapping that supplies all
    the referenced names, [format] returns the result of the single
    left-to-right pass that replaces each placeholder by [str] of its value
    and copies every other character. *)
Theorem format_is_single_pass_fill (template : string) (kwargs : gmap string pyval) :
  only_named_fields template = true ->
  covers kwargs template ->
  format template kwargs = Returns (fill template kwargs).
Proof.
  intros Hplain Hcov.
  destruct (format_named template kwargs Hplain)
    as [[_ Hfmt] | (n & Hin & Hnone & _)]; [exact Hfmt|].
  destruct (not_covers_missing _ _ _ Hin Hnone Hcov).
Qed.

Lemma configured_kwargs_cover_claim_query :
  covers configured_kwargs Templates.claim_query.
Proof.
  unfold covers.
  replace (placeholders Templates.claim_query)
    with ["snapshot"; "start_date"; "end_date"] by (vm_compute; reflexivity).
  repeat constructor; (eexists; vm_compute; reflexivity).
Defined.

Lemma format_is_single_pass_fill_witness :
  format Templates.claim_query configured_kwargs
  = Returns (fill Templates.claim_query configured_kwargs).
Proof.
  apply format_is_single_pass_fill.
  - vm_compute. reflexivity.
  - exact configured_kwargs_cover_claim_query.
Defined.

(** C5 does not hold of every template text: a doubled brace is not
    copied but collapsed to a single brace, and the name between doubled
    braces is not substituted. *)
Lemma format_collapses_doubled_braces :
  ~ (forall (template : string) (kwargs : gmap string pyval),
       covers kwargs template ->
       format template kwargs = Returns (fill template kwargs)).
Proof.
  intros H.
  specialize (H "{{a}}" {[ "a" := PStr "1" ]}).
  assert (Hcov : covers {[ "a" := PStr "1" ]} "{{a}}").
  { unfold covers.
    replace (placeholders "{{a}}") with ["a"] by (vm_compute; reflexivity).
    repeat constructor. eexists. vm_compute. reflexivity. }
  specialize (H Hcov). vm_compute in H. discriminate H.
Qed.

Example doubled_braces_formatted :
  format "{{a}}" {[ "a" := PStr "1" ]} = Returns "{a}"
  /\ fill "{{a}}" {[ "a" := PStr "1" ]} = "{1}".
Proof. split; vm_compute; reflexivity. Qed.

(** Substituted text is not scanned again. *)
Example format_does_not_expand_values :
  format "{a}" {[ "a" := PStr "{b}"; "b" := PStr "x" ]} = Returns "{b}".
Proof. vm_compute. reflexivity. Qed.

(** * Properties of the overlap arithmetic *)

Import Pandas Overlap Hive.

Lemma wrap64_in_range (z : Z) : INT64_MIN <= z <= INT64_MAX -> wrap64 z = z.
Proof.
  unfold wrap64, INT64_MIN, INT64_MAX. intros H.
  rewrite Z.mod_small; lia.
Qed.

Lemma wrap64_sub_l (x u : Z) : wrap64 (wrap64 x - u) = wrap64 (x - u).
Proof.
  unfold wrap64.
  replace ((x + 2 ^ 63) mod 2 ^ 64 - 2 ^ 63 - u + 2 ^ 63)
    with ((x + 2 ^ 63) mod 2 ^ 64 - u) by lia.
  rewrite Zminus_mod_idemp_l.
  replace (x + 2 ^ 63 - u) with (x - u + 2 ^ 63) by lia.
  reflexivity.
Qed.

(** On three one-row counts the cell computes the int64 value of
    [a + b - u]; the wrap-around of the intermediate sum cancels. *)
Lemma pairwise_overlap_counts (a b u : Z) :
  pairwise_overlap (count_series a) (count_series b) (count_series u)
  = Returns (count_series (wrap64 (a + b - u))).
Proof.
  unfold pairwise_overlap, count_series, add, sub. simpl.
  rewrite wrap64_sub_l. reflexivity.
Qed.

(** The cell on one-row frames is [pairwise_overlap] on their counts. *)
Lemma both_captions_cell_count_frames (a b u : Z) :
  both_captions_cell (count_frame "num_pages" a) (count_frame "num_pages" b)
    (count_frame "num_pages" u)
  = pairwise_overlap (count_series a) (count_series b) (count_series u).
Proof. reflexivity. Qed.

Lemma zip_with_comm {A B : Type} (f : A -> A -> B) (xs ys : list A) :
  (forall x y, f x y = f y x) -> zip_with f xs ys = zip_with f ys xs.
Proof.
  intros Hf. revert ys.
  induction xs as [|x xs IH]; intros [|y ys]; simpl; try reflexivity.
  rewrite Hf, IH. reflexivity.
Qed.

Lemma add_comm (a b : Series) : add a b = add b a.
Proof.
  unfold add, arith.
  destruct a as [xs|n], b as [ys|m]; simpl; try (rewrite Nat.max_comm; reflexivity).
  repeat case_decide; try (exfalso; tauto || congruence || lia).
  - f_equal. f_equal. apply zip_with_comm. intros. f_equal. lia.
  - rewrite Nat.max_comm; reflexivity.
  - reflexivity.
Qed.

Lemma arith_never_raises (op : Z -> Z -> Z) (l r : Series) : ~ raises (arith op l r).
Proof.
  intros [e He]. unfold arith in He.
  destruct l, r; repeat case_decide; discriminate.
Qed.

Lemma pairwise_overlap_never_raises (a b u : Series) :
  ~ raises (pairwise_overlap a b u).
Proof.
  intros [e He]. unfold pairwise_overlap in He.
  destruct (add a b) as [s| e' |] eqn:Hadd; simpl in He.
  - apply (arith_never_raises Z.sub s u). exists e. exact He.
  - apply (arith_never_raises Z.add a b). exists e'. exact Hadd.
  - discriminate.
Qed.

(** *** Counting distinct pages *)

Lemma size_union_inter (A B : gset Z) :
  (size (A ∪ B) + size (A ∩ B) = size A + size B)%nat.
Proof.
  assert (Hdisj : (A ∩ B) ## (B ∖ A)).
  { apply elem_of_disjoint. intros x.
    rewrite elem_of_intersection, elem_of_difference. tauto. }
  assert (HB : B = (A ∩ B) ∪ (B ∖ A)).
  { apply set_eq. intros x.
    rewrite elem_of_union, elem_of_intersection, elem_of_difference.
    destruct (decide (x ∈ A)); tauto. }
  pose proof (size_union (A ∩ B) (B ∖ A) Hdisj) as Hsize.
  rewrite <- HB in Hsize.
  rewrite size_union_alt. lia.
Qed.

Lemma elem_of_page_ids (where_ : history_row -> bool) (table : list history_row)
    (x : Z) :
  x ∈ page_ids where_ table
  <-> exists r, r ∈ table /\ where_ r = true /\ page_id r = Some x.
Proof.
  unfold page_ids. rewrite elem_of_list_to_set, list_elem_of_omap.
  split.
  - intros (r & Hr & Hid). apply list_elem_of_filter in Hr as [Hw Hr].
    exists r. split; [exact Hr|]. split; [|exact Hid]. apply Is_true_true. exact Hw.
  - intros (r & Hr & Hw & Hid). exists r. split; [|exact Hid].
    apply list_elem_of_filter. split; [|exact Hr]. apply Is_true_true. exact Hw.
Qed.

Lemma page_ids_union (table : list history_row) (wa wb wu : history_row -> bool) :
  (forall r, r ∈ table -> wu r = wa r || wb r) ->
  page_ids wu table = page_ids wa table ∪ page_ids wb table.
Proof.
  intros H. apply set_eq. intros x.
  rewrite elem_of_union, !elem_of_page_ids.
  split.
  - intros (r & Hr & Hw & Hid). rewrite (H r Hr) in Hw.
    apply orb_prop in Hw as [Hw|Hw]; [left|right]; eauto.
  - intros [(r & Hr & Hw & Hid)|(r & Hr & Hw & Hid)]; exists r;
      (split; [exact Hr|]); (split; [|exact Hid]); rewrite (H r Hr), Hw;
      [reflexivity | apply orb_true_r].
Qed.

(** C1.  When the three counts come from one table and the filter of the
    union count keeps exactly the rows that the filter of either counted
    set keeps (the same base filter under all three), [pairwise_overlap]
    on the counts returns [count_a + count_b - count_union], and that
    number is the count of pages present in both sets. *)
Theorem pairwise_overlap_is_intersection_count
    (table : list history_row) (where_a where_b where_union : history_row -> bool) :
  (forall r, r ∈ table -> where_union r = where_a r || where_b r) ->
  count_distinct_page_id where_union table <= INT64_MAX ->
  pairwise_overlap
    (count_series (count_distinct_page_id where_a table))
    (count_series (count_distinct_page_id where_b table))
    (count_series (count_distinct_page_id where_union table))
  = Returns
      (count_series
         (count_distinct_page_id where_a table
          + count_distinct_page_id where_b table
          - count_distinct_page_id where_union table))
  /\ count_distinct_page_id where_a table
     + count_distinct_page_id where_b table
     - count_distinct_page_id where_union table
     = Z.of_nat (size (page_ids where_a table ∩ page_ids where_b table)).
Proof.
  intros Hunion Hmax.
  unfold count_distinct_page_id in *.
  rewrite (page_ids_union table where_a where_b where_union Hunion) in *.
  pose proof (size_union_inter (page_ids where_a table) (page_ids where_b table))
    as Hsize.
  pose proof (subseteq_size (page_ids where_a table ∩ page_ids where_b table)
                (page_ids where_a table ∪ page_ids where_b table)) as Hle.
  assert (Hsub : page_ids where_a table ∩ page_ids where_b table
                 ⊆ page_ids where_a table ∪ page_ids where_b table).
  { intros x. rewrite elem_of_intersection, elem_of_union. tauto. }
  specialize (Hle Hsub).
  split; [|lia].
  rewrite pairwise_overlap_counts, wrap64_in_range; [reflexivity|].
  unfold INT64_MIN, INT64_MAX in *. lia.
Qed.

Lemma captioned_pages_union (r : history_row) :
  r ∈ captioned_pages ->
  all_caption_where configured_params r
  = nonenglish_caption_where configured_params r
    || english_caption_where configured_params r.
Proof.
  unfold captioned_pages. intros Hr.
  repeat (apply elem_of_cons in Hr as [->|Hr]; [vm_compute; reflexivity|]).
  apply elem_of_nil in Hr. destruct Hr.
Defined.

Lemma pairwise_overlap_is_intersection_count_witness :
  pairwise_overlap
    (count_series
       (count_distinct_page_id (nonenglish_caption_where configured_params)
          captioned_pages))
    (count_series
       (count_distinct_page_id (english_caption_where configured_params)
          captioned_pages))
    (count_series
       (count_distinct_page_id (all_caption_where configured_params)
          captioned_pages))
  = Returns
      (count_series
         (count_distinct_page_id (nonenglish_caption_where configured_params)
            captioned_pages
          + count_distinct_page_id (english_caption_where configured_params)
              captioned_pages
          - count_distinct_page_id (all_caption_where configured_params)
              captioned_pages))
  /\ count_distinct_page_id (nonenglish_caption_where configured_params)
       captioned_pages
     + count_distinct_page_id (english_caption_where configured_params)
         captioned_pages
     - count_distinct_page_id (all_caption_where configured_params)
         captioned_pages
     = Z.of_nat
         (size
            (page_ids (nonenglish_caption_where configured_params) captioned_pages
             ∩ page_ids (english_caption_where configured_params) captioned_pages)).
Proof.
  apply pairwise_overlap_is_intersection_count.
  - exact captioned_pages_union.
  - vm_compute. discriminate.
Defined.

(** On the three pages of [captioned_pages] the counts are 2, 2 and 3 and
    one page has both kinds of caption. *)
Example captioned_pages_counts :
  both_captions_cell
    (nonenglish_caption_filecount configured_params captioned_pages)
    (english_caption_filecount configured_params captioned_pages)
    (all_caption_filecount configured_params captioned_pages)
  = Returns (Int64 [1]).
Proof. vm_compute. reflexivity. Qed.

(** C2.  [pairwise_overlap] has no error path: on every
    triple of counts whose difference [a + b - union] fits int64 it returns
    that difference, negative or not, and it never raises. *)
Theorem pairwise_overlap_returns_difference (a b u : Z) :
  INT64_MIN <= a + b - u <= INT64_MAX ->
  pairwise_overlap (count_series a) (count_series b) (count_series u)
  = Returns (count_series (a + b - u))
  /\ ~ raises (pairwise_overlap (count_series a) (count_series b) (count_series u)).
Proof.
  intros Hrange. split; [|apply pairwise_overlap_never_raises].
  rewrite pairwise_overlap_counts, wrap64_in_range by exact Hrange.
  reflexivity.
Qed.

Lemma pairwise_overlap_returns_difference_witness :
  pairwise_overlap (count_series 0) (count_series 0) (count_series 1)
  = Returns (count_series (0 + 0 - 1))
  /\ ~ raises (pairwise_overlap (count_series 0) (count_series 0) (count_series 1)).
Proof.
  apply pairwise_overlap_returns_difference.
  unfold INT64_MIN, INT64_MAX. lia.
Defined.

(** C2 with an error for negative results does not hold: with
    [a + b < union] a negative count is returned and nothing is raised. *)
Lemma pairwise_overlap_negative_not_raised :
  ~ (forall a b u : Z,
       a + b < u ->
       raises (pairwise_overlap (count_series a) (count_series b) (count_series u))).
Proof.
  intros H.
  destruct (H 0 0 1 ltac:(lia)) as [e He].
  vm_compute in He. discriminate He.
Qed.

(** C6.  [pairwise_overlap] is commutative in its first two arguments, on
    every pair of Series and with the same outcome on both sides. *)
Theorem pairwise_overlap_comm (a b u : Series) :
  pairwise_overlap a b u = pairwise_overlap b a u.
Proof. unfold pairwise_overlap. rewrite (add_comm a b). reflexivity. Qed.

(** C8.  On the recorded counts 731900, 776401 and 1365092 the result is
    143209, and the cell evaluated on the three recorded frames gives the
    recorded output. *)
Theorem recorded_counts_overlap :
  pairwise_overlap (count_series 731900) (count_series 776401)
    (count_series 1365092)
  = Returns (count_series 143209)
  /\ both_captions_cell Recorded.nonenglish_caption_filecount
       Recorded.english_caption_filecount Recorded.all_caption_filecount
     = Returns Recorded.pages_with_both.
Proof. split; vm_compute; reflexivity. Qed.

(** C9.  A zero-row result is a frame like any other, never
    an exception; the cell evaluated on scalar-count results of which at
    least one has no row raises nothing: it returns the empty Series when
    all three are empty and a single NaN otherwise. *)
Theorem zero_row_counts_give_empty_or_nan (xs ys zs : list Z) :
  (length xs <= 1)%nat -> (length ys <= 1)%nat -> (length zs <= 1)%nat ->
  xs = [] \/ ys = [] \/ zs = [] ->
  both_captions_cell (num_pages_frame xs) (num_pages_frame ys) (num_pages_frame zs)
  = Returns (if decide (xs = [] /\ ys = [] /\ zs = []) then Int64 [] else AllNaN 1)
  /\ forall e, Returns (num_pages_frame []) <> Raises e.
Proof.
  intros Hx Hy Hz Hempty. split; [|discriminate].
  destruct xs as [|x [|x' xs]], ys as [|y [|y' ys]], zs as [|z [|z' zs]];
    simpl in Hx, Hy, Hz; try lia;
    try reflexivity.
  destruct Hempty as [H|[H|H]]; discriminate H.
Qed.

Lemma zero_row_counts_give_empty_or_nan_witness :
  both_captions_cell (num_pages_frame []) (num_pages_frame [776401])
    (num_pages_frame [1365092])
  = Returns
      (if decide (@nil Z = [] /\ [776401] = [] /\ [1365092] = [])
       then Int64 [] else AllNaN 1)
  /\ forall e, Returns (num_pages_frame []) <> Raises e.
Proof.
  apply zero_row_counts_give_empty_or_nan; simpl; try lia.
  left. reflexivity.
Defined.

(** C9 with an error for zero-row results does not hold: on three
    zero-row results the cell returns the empty Series and raises
    nothing. *)
Lemma zero_row_counts_not_raised :
  ~ (forall a b u : DataFrame,
       n_rows a = 0%nat \/ n_rows b = 0%nat \/ n_rows u = 0%nat ->
       raises (both_captions_cell a b u)).
Proof.
  intros H.
  destruct (H (num_pages_frame []) (num_pages_frame []) (num_pages_frame [])
              (or_introl eq_refl)) as [e He].
  vm_compute in He. discriminate He.
Qed.

Example zero_rows_evaluated :
  both_captions_cell (num_pages_frame []) (num_pages_frame []) (num_pages_frame [])
  = Returns (Int64 [])
  /\ both_captions_cell (num_pages_frame []) (num_pages_frame [776401])
       (num_pages_frame [1365092])
     = Returns (AllNaN 1).
Proof. split; vm_compute; reflexivity. Qed.

(** * The three caption count queries *)

Import QueryText.

Lemma strip_prefix_app (p q s t : string) :
  strip_prefix (p +:+ q) s = Some t -> is_Some (strip_prefix p s).
Proof.
  revert s. induction p as [|a p IH]; intros s H; simpl in *.
  - eauto.
  - destruct s as [|b s]; [discriminate|].
    destruct (Ascii.eqb a b); [eauto | discriminate].
Qed.

Lemma label_add_colon_implies_label_add (s : string) :
  rlike_label_add_colon s = true -> rlike_label_add s = true.
Proof.
  unfold rlike_label_add_colon, rlike_label_add, after_three_then.
  intros H. apply bool_decide_eq_true in H. apply bool_decide_eq_true.
  destruct s as [|a [|b [|c rest]]]; try (destruct H; discriminate).
  destruct (dot a && dot b && dot c); [|destruct H; discriminate].
  destruct H as [t Ht].
  apply (strip_prefix_app "wbsetlabel-add" ":" rest t). exact Ht.
Qed.

(** The filter of the all-captions count keeps the rows that either
    language count keeps, and besides them the rows whose comment matches
    [^...wbsetlabel-add] with no colon after it. *)
Lemma all_caption_where_split (p : query_params) (r : history_row) :
  all_caption_where p r
  = nonenglish_caption_where p r || english_caption_where p r
    || (all_caption_where p r && negb (comment_is rlike_label_add_colon r)).
Proof.
  unfold all_caption_where, nonenglish_caption_where, english_caption_where.
  match goal with
  | |- ?b && comment_is rlike_label_add r = _ => generalize b
  end.
  intros base. unfold comment_is.
  destruct (event_comment r) as [c|]; [|destruct base; reflexivity].
  pose proof (label_add_colon_implies_label_add c) as Himp.
  destruct base, (rlike_label_add_colon c), (rlike_label_add c),
    (rlike_english (regexp_extract_language c));
    simpl; try reflexivity; discriminate (Himp eq_refl).
Qed.

(** The union requirement of [pairwise_overlap_is_intersection_count] holds
    of the notebook's three filters on every row whose comment has the
    colon. *)
Lemma all_caption_where_union (p : query_params) (r : history_row) :
  (all_caption_where p r = true -> comment_is rlike_label_add_colon r = true) ->
  all_caption_where p r = nonenglish_caption_where p r || english_caption_where p r.
Proof.
  intros Hcolon. rewrite (all_caption_where_split p r) at 1.
  destruct (all_caption_where p r).
  - rewrite (Hcolon eq_refl). simpl. apply orb_false_r.
  - simpl. apply orb_false_r.
Qed.

(** C10.  The texts of the three count queries share the lines that test
    snapshot, wiki, event entity and type, date range, deletion flag and
    namespace; the line that tests [event_comment] is the same in the
    English and the all-captions query and differs from it, by a colon, in
    the non-English query.  On a table holding one caption edit whose
    comment lacks that colon the three counts are 0, 0 and 1, and the cell
    computes -1. *)
Theorem caption_queries_differ_in_event_comment_filter :
  filter_lines Templates.nonenglish_caption_count_query
  = filter_lines Templates.all_caption_count_query
  /\ filter_lines Templates.english_caption_count_query
     = filter_lines Templates.all_caption_count_query
  /\ event_comment_lines Templates.english_caption_count_query
     = event_comment_lines Templates.all_caption_count_query
  /\ event_comment_lines Templates.nonenglish_caption_count_query
     <> event_comment_lines Templates.all_caption_count_query
  /\ nonenglish_caption_filecount configured_params comment_without_colon
     = count_frame "num_pages" 0
  /\ english_caption_filecount configured_params comment_without_colon
     = count_frame "num_pages" 0
  /\ all_caption_filecount configured_params comment_without_colon
     = count_frame "num_pages" 1
  /\ both_captions_cell
       (nonenglish_caption_filecount configured_params comment_without_colon)
       (english_caption_filecount configured_params comment_without_colon)
       (all_caption_filecount configured_params comment_without_colon)
     = Returns (Int64 [-1]).
Proof.
  repeat match goal with |- _ /\ _ => split end;
    try (vm_compute; reflexivity).
  vm_compute. discriminate.
Qed.

(** * [template_count_query] on the row store *)

Import TemplateLinks.





(** On an empty table the run still returns one row, holding 0. *)
Example template_count_run_empty :
  template_count_run "Artwork" [] = Returns (count_frame "num_files" 0).
Proof. vm_compute. reflexivity. Qed.

(** * Further properties of template filling *)

Import Text.

Lemma lbrace_not_rbrace (c : ascii) :
  Ascii.eqb c lbrace = true -> Ascii.eqb c rbrace = false.
Proof. intros H. apply Ascii.eqb_eq in H. subst c. reflexivity. Qed.

Lemma get_field_object_agree (kw kw' : gmap string pyval) (name : string) :
  kw !! name = kw' !! name -> get_field_object kw name = get_field_object kw' name.
Proof. intros H. unfold get_field_object. rewrite H. reflexivity. Qed.

Lemma get_field_object_KeyError (kw : gmap string pyval) (name key : string) :
  get_field_object kw name = Raises (KeyError key) ->
  key = name /\ kw !! name = None.
Proof.
  unfold get_field_object.
  destruct (get_integer name); try discriminate.
  destruct name; try discriminate.
  destruct (kw !! String a name) eqn:E; try discriminate.
  intros H. injection H as <-. auto.
Qed.

Lemma bind_returns_raises_inv {A B : Type} (c : outcome A) (f : A -> B) (e : exn) :
  (x ← c; Returns (f x)) = Raises e -> c = Raises e.
Proof. destruct c; simpl; intros H; (discriminate H || congruence). Qed.

(** Every name a scan of [format] looks up is a name [placeholders] lists,
    whatever the scanner of [placeholders] was doing when the scan of
    [format] returned to literal text. *)
Lemma format_from_agree (kw kw' : gmap string pyval) (n : nat) :
  forall s, (String.length s <= n)%nat ->
    (forall m',
       (forall x, x ∈ placeholders_from m' s -> kw !! x = kw' !! x) ->
       format_from kw Literal s = format_from kw' Literal s)
    /\ (forall name,
          (forall x, x ∈ placeholders_from (Field name) s -> kw !! x = kw' !! x) ->
          format_from kw (Field name) s = format_from kw' (Field name) s).
Proof.
  induction n as [|n IH]; intros s Hlen.
  { destruct s; [|simpl in Hlen; lia]. split; intros; reflexivity. }
  destruct s as [|c rest]; [split; intros; reflexivity|].
  simpl in Hlen.
  assert (Hrest : (String.length rest <= n)%nat) by lia.
  destruct (IH rest Hrest) as [IHlit IHfield].
  split.
  - intros m' Hag. simpl.
    destruct (Ascii.eqb c lbrace) eqn:Hl.
    + pose proof (lbrace_not_rbrace c Hl) as Hr.
      assert (Hag' : forall x, x ∈ placeholders_from (Field EmptyString) rest ->
                               kw !! x = kw' !! x).
      { intros x Hx. apply Hag. destruct m'; simpl; rewrite ?Hr, Hl; exact Hx. }
      destruct rest as [|c' rest']; [reflexivity|].
      destruct (Ascii.eqb c' lbrace) eqn:Hl'.
      * simpl in Hrest.
        destruct (IH rest' ltac:(lia)) as [IHlit' _].
        rewrite (IHlit' (Field EmptyString)); [reflexivity|].
        intros x Hx. apply Hag'. simpl.
        rewrite (lbrace_not_rbrace c' Hl'), Hl'. exact Hx.
      * apply IHfield, Hag'.
    + destruct (Ascii.eqb c rbrace) eqn:Hr.
      * destruct rest as [|c' rest']; [reflexivity|].
        destruct (Ascii.eqb c' rbrace) eqn:Hr'; [|reflexivity].
        simpl in Hrest.
        destruct (IH rest' ltac:(lia)) as [IHlit' _].
        rewrite (IHlit' Literal); [reflexivity|].
        intros x Hx. apply Hag.
        assert (Hl' : Ascii.eqb c' lbrace = false).
        { destruct (Ascii.eqb c' lbrace) eqn:E; [|reflexivity].
          rewrite (lbrace_not_rbrace c' E) in Hr'. discriminate. }
        destruct m'; simpl; rewrite ?Hl, ?Hr, Hl'; [exact Hx | right; exact Hx].
      * destruct m' as [|nm].
        -- rewrite (IHlit Literal); [reflexivity|].
           intros x Hx. apply Hag. simpl. rewrite Hl. exact Hx.
        -- rewrite (IHlit (Field (snoc nm c))); [reflexivity|].
           intros x Hx. apply Hag. simpl. rewrite Hr, Hl. exact Hx.
  - intros name Hag. simpl in Hag |- *.
    destruct (Ascii.eqb c rbrace) eqn:Hr.
    + rewrite (get_field_object_agree kw kw' name) by (apply Hag; left).
      rewrite (IHlit Literal); [reflexivity|].
      intros x Hx. apply Hag. right. exact Hx.
    + destruct (Ascii.eqb c lbrace) eqn:Hl; [reflexivity|].
      destruct (starts_field_suffix c); [reflexivity|].
      apply IHfield, Hag.
Qed.

Lemma bind_modelled {A B : Type} (x : outcome A) (f : A -> B) :
  x <> Unmodelled -> (a ← x; Returns (f a)) <> Unmodelled.
Proof. destruct x; simpl; congruence. Qed.

(** On a template with plain fields [format] returns or raises: the
    embedding covers the call. *)
Lemma plain_fields_modelled (kw : gmap string pyval) (n : nat) :
  forall s, (String.length s <= n)%nat ->
    forall m, plain_fields_from m s = true -> format_from kw m s <> Unmodelled.
Proof.
  induction n as [|n IH]; intros s Hlen m Hplain.
  { destruct s; [|simpl in Hlen; lia]. destruct m; discriminate. }
  destruct s as [|c rest]; [destruct m; discriminate|].
  simpl in Hlen.
  assert (Hrest : (String.length rest <= n)%nat) by lia.
  destruct m as [|name]; simpl in Hplain |- *.
  - destruct (Ascii.eqb c lbrace).
    + destruct rest as [|c' rest']; [discriminate|].
      simpl in Hrest.
      destruct (Ascii.eqb c' lbrace).
      * apply bind_modelled, (IH rest' ltac:(lia) Literal Hplain).
      * apply (IH (String c' rest') Hrest (Field EmptyString) Hplain).
    + destruct (Ascii.eqb c rbrace).
      * destruct rest as [|c' rest']; [discriminate|].
        simpl in Hrest.
        destruct (Ascii.eqb c' rbrace); [|discriminate].
        apply bind_modelled, (IH rest' ltac:(lia) Literal Hplain).
      * apply bind_modelled, (IH rest Hrest Literal Hplain).
  - destruct (Ascii.eqb c rbrace).
    + pose proof (IH rest Hrest Literal Hplain) as Hrest'.
      unfold get_field_object.
      destruct (get_integer name); try discriminate.
      destruct name; [discriminate|].
      destruct (kw !! _); [|discriminate].
      simpl. apply bind_modelled, Hrest'.
    + destruct (Ascii.eqb c lbrace); [discriminate|].
      destruct (starts_field_suffix c); [discriminate|].
      apply (IH rest Hrest _ Hplain).
Qed.

(** X1.  On every template text whose replacement fields are plain (no
    conversion, format spec, attribute or index), [format] returns or
    raises, and it depends on the keyword arguments only through the names
    the text references: two mappings that agree on those names give the
    same outcome, so a parameter the template does not reference is
    ignored. *)
Theorem format_ignores_unreferenced
    (template : string) (kw kw' : gmap string pyval) :
  plain_fields template = true ->
  (forall name, name ∈ placeholders template -> kw !! name = kw' !! name) ->
  format template kw = format template kw'
  /\ format template kw <> Unmodelled.
Proof.
  intros Hplain H. split.
  - destruct (format_from_agree kw kw' (String.length template) template (le_n _))
      as [Hlit _].
    apply (Hlit Literal). exact H.
  - apply (plain_fields_modelled kw (String.length template) template (le_n _)
             Literal Hplain).
Qed.

Lemma format_ignores_unreferenced_witness :
  format Templates.claim_query configured_kwargs
  = format Templates.claim_query
      (<["template_title" := PStr "Information"]> configured_kwargs)
  /\ format Templates.claim_query configured_kwargs <> Unmodelled.
Proof.
  apply format_ignores_unreferenced; [vm_compute; reflexivity|].
  intros name Hin.
  replace (placeholders Templates.claim_query)
    with ["snapshot"; "start_date"; "end_date"] in Hin by (vm_compute; reflexivity).
  repeat (apply elem_of_cons in Hin as [->|Hin]; [vm_compute; reflexivity|]).
  apply elem_of_nil in Hin. destruct Hin.
Defined.

Lemma format_from_KeyError (kw : gmap string pyval) (key : string) (n : nat) :
  forall s, (String.length s <= n)%nat ->
    (forall m',
       format_from kw Literal s = Raises (KeyError key) ->
       key ∈ placeholders_from m' s /\ kw !! key = None)
    /\ (forall name,
          format_from kw (Field name) s = Raises (KeyError key) ->
          key ∈ placeholders_from (Field name) s /\ kw !! key = None).
Proof.
  induction n as [|n IH]; intros s Hlen.
  { destruct s; [|simpl in Hlen; lia]. split; intros; discriminate. }
  destruct s as [|c rest]; [split; intros; discriminate|].
  simpl in Hlen.
  assert (Hrest : (String.length rest <= n)%nat) by lia.
  destruct (IH rest Hrest) as [IHlit IHfield].
  split.
  - intros m' Hfmt. simpl in Hfmt.
    destruct (Ascii.eqb c lbrace) eqn:Hl.
    + pose proof (lbrace_not_rbrace c Hl) as Hr.
      assert (Hsame : placeholders_from m' (String c rest)
                      = placeholders_from (Field EmptyString) rest).
      { destruct m'; simpl; rewrite ?Hr, Hl; reflexivity. }
      rewrite Hsame.
      destruct rest as [|c' rest']; [discriminate|].
      destruct (Ascii.eqb c' lbrace) eqn:Hl'.
      * simpl in Hrest.
        destruct (IH rest' ltac:(lia)) as [IHlit' _].
        apply bind_returns_raises_inv in Hfmt.
        simpl. rewrite (lbrace_not_rbrace c' Hl'), Hl'.
        apply (IHlit' (Field EmptyString)), Hfmt.
      * apply IHfield, Hfmt.
    + destruct (Ascii.eqb c rbrace) eqn:Hr.
      * destruct rest as [|c' rest']; [discriminate|].
        destruct (Ascii.eqb c' rbrace) eqn:Hr'; [|discriminate].
        simpl in Hrest.
        destruct (IH rest' ltac:(lia)) as [IHlit' _].
        apply bind_returns_raises_inv in Hfmt.
        destruct (IHlit' Literal Hfmt) as [Hin Hnone].
        split; [|exact Hnone].
        assert (Hl' : Ascii.eqb c' lbrace = false).
        { destruct (Ascii.eqb c' lbrace) eqn:E; [|reflexivity].
          rewrite (lbrace_not_rbrace c' E) in Hr'. discriminate. }
        destruct m'; simpl; rewrite ?Hl, ?Hr, Hl'; [exact Hin | right; exact Hin].
      * apply bind_returns_raises_inv in Hfmt.
        destruct m' as [|nm]; simpl; rewrite ?Hr, Hl.
        -- apply (IHlit Literal), Hfmt.
        -- apply (IHlit (Field (snoc nm c))), Hfmt.
  - intros name Hfmt. simpl in Hfmt |- *.
    destruct (Ascii.eqb c rbrace) eqn:Hr.
    + destruct (get_field_object kw name) as [v|e|] eqn:Hget; simpl in Hfmt.
      * apply bind_returns_raises_inv in Hfmt.
        destruct (IHlit Literal Hfmt) as [Hin Hnone].
        split; [right; exact Hin | exact Hnone].
      * injection Hfmt as ->.
        apply get_field_object_KeyError in Hget as [-> Hnone].
        split; [left | exact Hnone].
      * discriminate.
    + destruct (Ascii.eqb c lbrace) eqn:Hl; [discriminate|].
      destruct (starts_field_suffix c); [discriminate|].
      apply IHfield, Hfmt.
Qed.

(** X2.  On every template text whose replacement fields are plain (no
    conversion, format spec, attribute or index), a [KeyError] raised by
    [format] carries the name of a placeholder that the text references
    and the mapping does not supply. *)
Theorem format_KeyError_names_missing_placeholder
    (template : string) (kw : gmap string pyval) (key : string) :
  plain_fields template = true ->
  format template kw = Raises (KeyError key) ->
  key ∈ placeholders template /\ kw !! key = None.
Proof.
  intros _ H.
  destruct (format_from_KeyError kw key (String.length template) template (le_n _))
    as [Hlit _].
  apply (Hlit Literal). exact H.
Qed.

Lemma format_KeyError_names_missing_placeholder_witness :
  "end_date" ∈ placeholders Templates.claim_query
  /\ ({[ "snapshot" := PStr Templates.wmf_snapshot;
         "start_date" := PStr Templates.start_date ]} : gmap string pyval)
     !! "end_date" = None.
Proof.
  apply format_KeyError_names_missing_placeholder; vm_compute; reflexivity.
Defined.

Lemma append_assoc (a b c : string) : (a +:+ b) +:+ c = a +:+ (b +:+ c).
Proof.
  induction a as [|x a IH]; [reflexivity|].
  change (String x ((a +:+ b) +:+ c) = String x (a +:+ (b +:+ c))).
  f_equal. exact IH.
Qed.

Lemma append_empty_r (a : string) : a +:+ EmptyString = a.
Proof.
  induction a as [|x a IH]; [reflexivity|].
  change (String x (a +:+ EmptyString) = String x a). f_equal. exact IH.
Qed.

Ltac bound_text :=
  unfold Templates.template_text, Templates.quoted;
  cbn [map String.concat];
  rewrite !append_assoc;
  vm_compute; reflexivity.

(** X3.  Whatever the title, the text bound from [template_count_query]
    and from [caption_count_query] is the template with the title put
    between the double quotes exactly as given: nothing in it is escaped
    or quoted further. *)
Theorem count_templates_bound_text (title : string) :
  format Templates.template_count_query (Recorded.template_title_is title)
  = Returns
      (Templates.template_text
         [ "SELECT count(DISTINCT tl_from) AS num_files";
           "FROM templatelinks";
           "WHERE tl_namespace = 10 -- template";
           "AND tl_title = " +:+ Templates.quoted title;
           "AND tl_from_namespace = 6 -- only files" ])
  /\ format Templates.caption_count_query (Recorded.template_title_is title)
     = Returns
         (Templates.template_text
            [ "SELECT count(DISTINCT tl_from) AS num_files";
              "FROM templatelinks";
              "JOIN wbc_entity_usage";
              "ON tl_from = eu_page_id";
              "WHERE tl_namespace = 10 -- template";
              "AND tl_title = " +:+ Templates.quoted title;
              "AND tl_from_namespace = 6 -- only files";
              "AND eu_entity_id REGEXP " +:+ Templates.quoted "^M"
                +:+ " -- pulling from MediaInfo";
              "AND eu_aspect REGEXP " +:+ Templates.quoted "^L"
                +:+ " -- pulling in a description" ]).
Proof. split; bound_text. Qed.

Lemma format_from_literal_prefix (kw : gmap string pyval) (pre s : string) :
  string_forall not_brace pre = true ->
  format_from kw Literal (pre +:+ s)
  = (out ← format_from kw Literal s; Returns (pre +:+ out)).
Proof.
  induction pre as [|c pre IH]; intros H.
  - change (EmptyString +:+ s) with s.
    destruct (format_from kw Literal s); reflexivity.
  - simpl in H. apply andb_prop in H as [Hc Hpre].
    unfold not_brace in Hc. apply andb_prop in Hc as [Hl Hr].
    apply negb_true_iff in Hl, Hr.
    change (String c pre +:+ s) with (String c (pre +:+ s)).
    cbn [format_from]. rewrite Hl, Hr, (IH Hpre).
    destruct (format_from kw Literal s); reflexivity.
Qed.

Lemma decimal_not_special (c : ascii) :
  decimal c = true ->
  Ascii.eqb c rbrace = false /\ Ascii.eqb c lbrace = false
  /\ starts_field_suffix c = false.
Proof.
  destruct c as [[] [] [] [] [] [] [] []]; vm_compute; intros H;
    try discriminate; auto.
Qed.

Lemma format_from_field_digits (kw : gmap string pyval) (name post acc : string) :
  string_forall decimal name = true ->
  format_from kw (Field acc) (name +:+ String rbrace post)
  = (v ← get_field_object kw (acc +:+ name);
     out ← format_from kw Literal post;
     Returns (py_str v +:+ out)).
Proof.
  revert acc. induction name as [|c name IH]; intros acc H.
  - change (EmptyString +:+ String rbrace post) with (String rbrace post).
    cbn [format_from]. rewrite append_empty_r. reflexivity.
  - simpl in H. apply andb_prop in H as [Hc Hname].
    destruct (decimal_not_special c Hc) as (Hr & Hl & Hs).
    change (String c name +:+ String rbrace post)
      with (String c (name +:+ String rbrace post)).
    cbn [format_from]. rewrite Hr, Hl, Hs, (IH _ Hname).
    unfold snoc. rewrite append_assoc. reflexivity.
Qed.

Lemma get_integer_loop_digits (name : string) (acc : Z) :
  string_forall decimal name = true ->
  get_integer_loop acc name <> NotInteger.
Proof.
  revert acc. induction name as [|c name IH]; intros acc H; simpl; [discriminate|].
  simpl in H. apply andb_prop in H as [Hc Hname]. unfold decimal in Hc.
  destruct (digitval c); [|discriminate].
  destruct (_ <? _); [discriminate | apply IH, Hname].
Qed.

Lemma get_field_object_positional (kw : gmap string pyval) (name : string) :
  string_forall decimal name = true ->
  get_field_object kw name
  = Raises (match get_integer name with
            | TooManyDigits => ValueError
            | _ => IndexError
            end).
Proof.
  intros H. unfold get_field_object.
  destruct name as [|c name]; [reflexivity|].
  pose proof (get_integer_loop_digits (String c name) 0 H) as Hloop.
  unfold get_integer.
  destruct (get_integer_loop 0 (String c name)); [contradiction | reflexivity..].
Qed.

(** X4.  A text whose first brace opens a field with an empty or an
    all-digit name (a regular-expression quantifier, for one) is never
    filled: [format] raises, whatever the keyword arguments, [IndexError]
    for the positional index it finds no argument for and [ValueError]
    when the number has too many digits. *)
Theorem format_positional_field_raises
    (kw : gmap string pyval) (pre name post : string) :
  string_forall not_brace pre = true ->
  string_forall decimal name = true ->
  format (pre +:+ String lbrace (name +:+ String rbrace post)) kw
  = Raises (match get_integer name with
            | TooManyDigits => ValueError
            | _ => IndexError
            end).
Proof.
  intros Hpre Hname. unfold format.
  rewrite (format_from_literal_prefix kw pre _ Hpre).
  assert (Hfield : format_from kw Literal (String lbrace (name +:+ String rbrace post))
                   = format_from kw (Field EmptyString) (name +:+ String rbrace post)).
  { destruct name as [|c name].
    - reflexivity.
    - simpl in Hname. apply andb_prop in Hname as [Hc _].
      destruct (decimal_not_special c Hc) as (_ & Hl & _).
      change (String c name +:+ String rbrace post)
        with (String c (name +:+ String rbrace post)).
      cbn [format_from]. change (Ascii.eqb lbrace lbrace) with true. cbv iota.
      rewrite Hl. reflexivity. }
  rewrite Hfield, (format_from_field_digits kw name post EmptyString Hname).
  change (EmptyString +:+ name) with name.
  rewrite (get_field_object_positional kw name Hname). reflexivity.
Qed.

Lemma format_positional_field_raises_witness :
  format ("rev_timestamp REGEXP ^[0-9]" +:+ String lbrace ("4" +:+ String rbrace "-"))
    configured_kwargs
  = Raises (match get_integer "4" with
            | TooManyDigits => ValueError
            | _ => IndexError
            end).
Proof.
  apply format_positional_field_raises; vm_compute; reflexivity.
Defined.

(** X5.  A text without braces is returned unchanged by [format],
    whatever the keyword arguments. *)
Theorem format_without_braces (kw : gmap string pyval) (text : string) :
  string_forall not_brace text = true ->
  format text kw = Returns text.
Proof.
  intros H. unfold format.
  rewrite <- (append_empty_r text) at 1.
  rewrite (format_from_literal_prefix kw text EmptyString H). simpl.
  rewrite append_empty_r. reflexivity.
Qed.

Lemma format_without_braces_witness :
  format PlainQueries.title_template_query configured_kwargs
  = Returns PlainQueries.title_template_query.
Proof.
  apply format_without_braces. vm_compute. reflexivity.
Defined.

(** * Further properties of the caption count queries *)

Import TimeToCaption.

Lemma regexp_extract_language_without_colon (c : string) :
  rlike_label_add_colon c = false -> regexp_extract_language c = EmptyString.
Proof.
  unfold rlike_label_add_colon, regexp_extract_language.
  intros H. apply bool_decide_eq_false in H.
  destruct (after_three_then "wbsetlabel-add:" c); [|reflexivity].
  destruct H. eauto.
Qed.

(** X6.  For parameter values without double quote and backslash, a row
    the English count keeps has the colon after [wbsetlabel-add], although
    the query's own test of [event_comment] does not ask for it: the
    language is extracted with a pattern that needs the colon, and an empty
    extract is not English. *)
Theorem english_caption_where_has_colon (p : query_params) (r : history_row) :
  literal_params p = true ->
  english_caption_where p r = true ->
  comment_is rlike_label_add_colon r = true.
Proof.
  unfold english_caption_where, comment_is. intros _ H.
  apply andb_prop in H as [_ H].
  destruct (event_comment r) as [c|]; [|discriminate].
  destruct (rlike_label_add_colon c) eqn:Hcolon; [reflexivity|].
  rewrite (regexp_extract_language_without_colon c Hcolon) in H.
  vm_compute in H. discriminate.
Qed.

Lemma english_caption_where_has_colon_witness :
  comment_is rlike_label_add_colon
    (caption_edit "/* wbsetlabel-add:1|en */ Town hall" 1) = true.
Proof.
  apply (english_caption_where_has_colon configured_params);
    vm_compute; reflexivity.
Defined.

Lemma language_where_implies_all (p : query_params) (r : history_row) :
  nonenglish_caption_where p r || english_caption_where p r = true ->
  all_caption_where p r = true.
Proof.
  intros H. rewrite all_caption_where_split, H. reflexivity.
Qed.

Lemma page_ids_mono (table : list history_row) (w w' : history_row -> bool) :
  (forall r, w r = true -> w' r = true) ->
  page_ids w table ⊆ page_ids w' table.
Proof.
  intros H x. rewrite !elem_of_page_ids.
  intros (r & Hr & Hw & Hid). exists r. auto.
Qed.

Lemma language_page_ids_subseteq (p : query_params) (table : list history_row) :
  page_ids (nonenglish_caption_where p) table ⊆ page_ids (all_caption_where p) table
  /\ page_ids (english_caption_where p) table ⊆ page_ids (all_caption_where p) table.
Proof.
  split; apply page_ids_mono; intros r Hr; apply language_where_implies_all;
    rewrite Hr; [reflexivity | apply orb_true_r].
Qed.

(** X7.  For parameter values without double quote and backslash and on
    every table, each of the two language counts is at most the
    all-captions count. *)
Theorem language_counts_at_most_all (p : query_params) (table : list history_row) :
  literal_params p = true ->
  0 <= count_distinct_page_id (nonenglish_caption_where p) table
    <= count_distinct_page_id (all_caption_where p) table
  /\ 0 <= count_distinct_page_id (english_caption_where p) table
       <= count_distinct_page_id (all_caption_where p) table.
Proof.
  intros _.
  destruct (language_page_ids_subseteq p table) as [Ha Hb].
  unfold count_distinct_page_id.
  split; (split; [lia|]); apply inj_le, subseteq_size; assumption.
Qed.

Lemma language_counts_at_most_all_witness :
  0 <= count_distinct_page_id (nonenglish_caption_where configured_params)
         captioned_pages
    <= count_distinct_page_id (all_caption_where configured_params) captioned_pages
  /\ 0 <= count_distinct_page_id (english_caption_where configured_params)
            captioned_pages
       <= count_distinct_page_id (all_caption_where configured_params)
            captioned_pages.
Proof.
  apply (language_counts_at_most_all configured_params captioned_pages).
  vm_compute. reflexivity.
Defined.

(** X8.  For parameter values without double quote and backslash, no row
    is kept by both language counts: a page counts for both only through
    different edits. *)
Theorem language_where_disjoint (p : query_params) (r : history_row) :
  literal_params p = true ->
  nonenglish_caption_where p r && english_caption_where p r = false.
Proof.
  intros _.
  unfold nonenglish_caption_where, english_caption_where, comment_is.
  destruct (event_comment r) as [c|]; [|rewrite !andb_false_r; reflexivity].
  destruct (rlike_english (regexp_extract_language c));
    rewrite ?andb_false_r; simpl; rewrite ?andb_false_r; reflexivity.
Qed.

Lemma language_where_disjoint_witness :
  nonenglish_caption_where configured_params
    (caption_edit "/* wbsetlabel-add:1|de */ Rathaus" 1)
  && english_caption_where configured_params
       (caption_edit "/* wbsetlabel-add:1|de */ Rathaus" 1) = false.
Proof.
  apply (language_where_disjoint configured_params
           (caption_edit "/* wbsetlabel-add:1|de */ Rathaus" 1)).
  vm_compute. reflexivity.
Defined.

Lemma all_caption_page_ids (p : query_params) (table : list history_row) :
  page_ids (all_caption_where p) table
  = page_ids (nonenglish_caption_where p) table
    ∪ page_ids (english_caption_where p) table
    ∪ page_ids (fun r => all_caption_where p r
                         && negb (comment_is rlike_label_add_colon r)) table.
Proof.
  rewrite <- (page_ids_union table (nonenglish_caption_where p)
                (english_caption_where p)
                (fun r => nonenglish_caption_where p r || english_caption_where p r))
    by reflexivity.
  apply page_ids_union. intros r _. apply all_caption_where_split.
Qed.

(** X9.  For parameter values without double quote and backslash and on
    every table, the cell "Number of pages with both" returns the number of
    pages that have both a kept English and a kept non-English caption
    edit, less the number of pages whose only kept edits lack the colon
    after [wbsetlabel-add]: it never overstates the overlap. *)
Theorem both_captions_cell_undercounts (p : query_params) (table : list history_row) :
  literal_params p = true ->
  count_distinct_page_id (all_caption_where p) table <= INT64_MAX ->
  both_captions_cell (nonenglish_caption_filecount p table)
    (english_caption_filecount p table) (all_caption_filecount p table)
  = Returns
      (Int64
         [ Z.of_nat (size (page_ids (nonenglish_caption_where p) table
                           ∩ page_ids (english_caption_where p) table))
           - Z.of_nat
               (size
                  (page_ids (fun r => all_caption_where p r
                                      && negb (comment_is rlike_label_add_colon r))
                     table
                   ∖ (page_ids (nonenglish_caption_where p) table
                      ∪ page_ids (english_caption_where p) table))) ]).
Proof.
  intros _ Hmax.
  destruct (language_page_ids_subseteq p table) as [Ha Hb].
  apply subseteq_size in Ha, Hb.
  unfold nonenglish_caption_filecount, english_caption_filecount,
    all_caption_filecount, select_num_pages.
  rewrite both_captions_cell_count_frames, pairwise_overlap_counts.
  rewrite wrap64_in_range.
  2:{ unfold INT64_MIN, INT64_MAX in *. unfold count_distinct_page_id in *. lia. }
  unfold count_distinct_page_id, count_series. do 3 f_equal.
  rewrite (all_caption_page_ids p table).
  set (A := page_ids (nonenglish_caption_where p) table).
  set (B := page_ids (english_caption_where p) table).
  set (C := page_ids _ table).
  rewrite (size_union_alt (A ∪ B) C).
  pose proof (size_union_inter A B). lia.
Qed.

Lemma both_captions_cell_undercounts_witness :
  both_captions_cell
    (nonenglish_caption_filecount configured_params
       (captioned_pages ++ comment_without_colon))
    (english_caption_filecount configured_params
       (captioned_pages ++ comment_without_colon))
    (all_caption_filecount configured_params
       (captioned_pages ++ comment_without_colon))
  = Returns
      (Int64
         [ Z.of_nat
             (size (page_ids (nonenglish_caption_where configured_params)
                      (captioned_pages ++ comment_without_colon)
                    ∩ page_ids (english_caption_where configured_params)
                        (captioned_pages ++ comment_without_colon)))
           - Z.of_nat
               (size
                  (page_ids
                     (fun r => all_caption_where configured_params r
                               && negb (comment_is rlike_label_add_colon r))
                     (captioned_pages ++ comment_without_colon)
                   ∖ (page_ids (nonenglish_caption_where configured_params)
                        (captioned_pages ++ comment_without_colon)
                      ∪ page_ids (english_caption_where configured_params)
                          (captioned_pages ++ comment_without_colon)))) ]).
Proof.
  apply both_captions_cell_undercounts;
    [vm_compute; reflexivity | vm_compute; discriminate].
Defined.

(** One page with both kinds of caption and one page with only an edit
    without the colon: the cell gives 1 - 1. *)
Example undercount_evaluated :
  both_captions_cell
    (nonenglish_caption_filecount configured_params
       (captioned_pages ++ comment_without_colon))
    (english_caption_filecount configured_params
       (captioned_pages ++ comment_without_colon))
    (all_caption_filecount configured_params
       (captioned_pages ++ comment_without_colon))
  = Returns (Int64 [0]).
Proof. vm_compute. reflexivity. Qed.

Lemma strip_prefix_prefix (p s : string) :
  is_Some (strip_prefix p s) -> String.prefix p s = true.
Proof.
  revert s. induction p as [|a p IH]; intros s H.
  - destruct s; reflexivity.
  - destruct s as [|b s]; simpl in H; [destruct H; discriminate|].
    simpl. destruct (Ascii.eqb a b) eqn:E; [|destruct H; discriminate].
    apply Ascii.eqb_eq in E. subst b.
    destruct (ascii_dec a a); [apply IH, H | congruence].
Qed.

Lemma english_variant_contains_en (s : string) :
  english_variant s = true -> contains "en" s = true.
Proof.
  induction s as [|c s IH]; intros H.
  - vm_compute in H. discriminate.
  - cbn [english_variant] in H. cbn [contains].
    apply orb_prop in H as [H|H].
    + destruct (strip_prefix "en-" (String c s)) as [t|] eqn:E; [|discriminate].
      rewrite (strip_prefix_prefix "en" (String c s)); [reflexivity|].
      apply (strip_prefix_app "en" "-" _ t). exact E.
    + rewrite (IH H). apply orb_true_r.
Qed.

(** X10.  The pattern ["^simple|en|(en-.+)$"] matches exactly the texts
    that start with [simple] or hold [en] anywhere: the anchors bind only
    the first and the last alternative, and the last one is subsumed by
    the unanchored [en]. *)
Theorem rlike_english_is_simple_or_en (s : string) :
  rlike_english s = String.prefix "simple" s || contains "en" s.
Proof.
  unfold rlike_english.
  destruct (english_variant s) eqn:E.
  - rewrite (english_variant_contains_en s E). rewrite !orb_true_r. reflexivity.
  - apply orb_false_r.
Qed.

(** A language code that merely holds [en] counts as English. *)
Example code_holding_en_counts_as_english :
  rlike_english "ven" = true /\ rlike_english "fr-simple" = false.
Proof. split; vm_compute; reflexivity. Qed.

Lemma string_leb_ltb_eqb (a b : string) :
  String.leb a b = String.ltb a b || String.eqb a b.
Proof.
  unfold String.leb, String.ltb.
  destruct (String.compare a b) eqn:E.
  - apply String.compare_eq_iff in E. subst. rewrite String.eqb_refl. reflexivity.
  - reflexivity.
  - destruct (String.eqb a b) eqn:Hab; [|reflexivity].
    apply String.eqb_eq in Hab. subst.
    pose proof (String.compare_antisym b b) as Hanti.
    rewrite E in Hanti. discriminate Hanti.
Qed.

(** X11.  For parameter values without double quote and backslash,
    [time_to_caption_query] keeps every row the non-English count keeps
    and, besides them, only rows stamped exactly with the end date: its
    date range is closed where the count's is open. *)
Theorem time_to_caption_where_includes_end_date (p : query_params) (r : history_row) :
  literal_params p = true ->
  time_to_caption_where p r
  = nonenglish_caption_where p r
    || (time_to_caption_where p r
        && String.eqb (event_timestamp r) (end_date_param p)).
Proof.
  intros _.
  unfold time_to_caption_where, nonenglish_caption_where.
  rewrite (string_leb_ltb_eqb (event_timestamp r) (end_date_param p)).
  destruct (String.eqb (snapshot r) (snapshot_param p)),
    (String.eqb (wiki_db r) "commonswiki"),
    (String.eqb (event_entity r) "revision"),
    (String.eqb (event_type r) "create"),
    (String.leb (start_date_param p) (event_timestamp r)),
    (String.ltb (event_timestamp r) (end_date_param p)),
    (String.eqb (event_timestamp r) (end_date_param p)),
    (negb (page_is_deleted r)), (page_namespace r =? 6),
    (comment_is rlike_label_add_colon r),
    (comment_is (fun c => negb (rlike_english (regexp_extract_language c))) r);
    reflexivity.
Qed.

Lemma time_to_caption_where_includes_end_date_witness :
  time_to_caption_where configured_params
    (Samples.edit_at Templates.end_date "/* wbsetlabel-add:1|de */ Rathaus" (Some 1))
  = nonenglish_caption_where configured_params
      (Samples.edit_at Templates.end_date "/* wbsetlabel-add:1|de */ Rathaus" (Some 1))
    || (time_to_caption_where configured_params
          (Samples.edit_at Templates.end_date "/* wbsetlabel-add:1|de */ Rathaus" (Some 1))
        && String.eqb
             (event_timestamp
                (Samples.edit_at Templates.end_date "/* wbsetlabel-add:1|de */ Rathaus"
                   (Some 1)))
             (end_date_param configured_params)).
Proof.
  apply (time_to_caption_where_includes_end_date configured_params
           (Samples.edit_at Templates.end_date "/* wbsetlabel-add:1|de */ Rathaus" (Some 1))).
  vm_compute. reflexivity.
Defined.

(** A row stamped with the end date itself is kept by
    [time_to_caption_query] and not by the count. *)
Example end_date_row_evaluated :
  time_to_caption_where configured_params
    (Samples.edit_at Templates.end_date "/* wbsetlabel-add:1|de */ Rathaus" (Some 1)) = true
  /\ nonenglish_caption_where configured_params
       (Samples.edit_at Templates.end_date "/* wbsetlabel-add:1|de */ Rathaus" (Some 1))
     = false.
Proof. split; vm_compute; reflexivity. Qed.

(** The two WHERE clauses differ in the line of the end date only. *)
Example time_to_caption_where_lines :
  where_lines Templates.time_to_caption_query
  = <[5%nat := "AND event_timestamp <= " +:+ Templates.quoted "{end_date}"]>
      (where_lines Templates.nonenglish_caption_count_query).
Proof. vm_compute. reflexivity. Qed.

Lemma span_spec (f : ascii -> bool) (s run tail : string) :
  span f s = (run, tail) ->
  s = run +:+ tail /\ string_forall f run = true
  /\ match tail with String c _ => f c = false | EmptyString => True end.
Proof.
  revert run tail. induction s as [|c s IH]; intros run tail H; simpl in H.
  - injection H as <- <-. auto.
  - destruct (f c) eqn:Hc.
    + destruct (span f s) as [run' tail'] eqn:Hs.
      injection H as <- <-.
      destruct (IH run' tail' eq_refl) as (-> & Hall & Htail).
      repeat split; [simpl; rewrite Hc, Hall; reflexivity | exact Htail].
    + injection H as <- <-. repeat split. exact Hc.
Qed.

Lemma strip_prefix_spec (p s t : string) :
  strip_prefix p s = Some t -> s = p +:+ t.
Proof.
  revert s. induction p as [|a p IH]; intros s H; simpl in H.
  - injection H as ->. reflexivity.
  - destruct s as [|b s]; [discriminate|].
    destruct (Ascii.eqb a b) eqn:E; [|discriminate].
    apply Ascii.eqb_eq in E. subst b.
    change (String a s = String a (p +:+ t)). f_equal. apply IH, H.
Qed.

Lemma after_three_then_spec (lit s t : string) :
  after_three_then lit s = Some t ->
  exists a b c, s = String a (String b (String c (lit +:+ t)))
                /\ dot a && dot b && dot c = true.
Proof.
  unfold after_three_then.
  destruct s as [|a [|b [|c rest]]]; try discriminate.
  destruct (dot a && dot b && dot c) eqn:Hd; [|discriminate].
  intros H. apply strip_prefix_spec in H. subst rest.
  exists a, b, c. auto.
Qed.

Lemma string_forall_app (f : ascii -> bool) (a b : string) :
  string_forall f (a +:+ b) = string_forall f a && string_forall f b.
Proof.
  induction a as [|x a IH]; [reflexivity|].
  change (string_forall f (String x (a +:+ b))
          = f x && string_forall f a && string_forall f b).
  simpl. rewrite IH. apply andb_assoc.
Qed.

Lemma string_forall_impl (f g : ascii -> bool) (s : string) :
  (forall c, f c = true -> g c = true) ->
  string_forall f s = true -> string_forall g s = true.
Proof.
  intros Hfg. induction s as [|c s IH]; [reflexivity|]. simpl.
  intros H. apply andb_prop in H as [Hc Hs]. rewrite (Hfg c Hc), (IH Hs). reflexivity.
Qed.

(** X12.  A language code that [regexp_extract] returns is read off the
    comment: it stands right after the three leading characters, the text
    [wbsetlabel-add:], one digit and one more character, and it is made of
    word characters and dashes only. *)
Theorem regexp_extract_language_spec (s lang : string) :
  regexp_extract_language s = lang -> lang <> EmptyString ->
  exists a b c n sep tail,
    s = String a (String b (String c
          ("wbsetlabel-add:" +:+ String n (String sep (lang +:+ tail)))))
    /\ digit n = true
    /\ string_forall word_or_dash lang = true.
Proof.
  unfold regexp_extract_language. intros H Hne.
  destruct (after_three_then "wbsetlabel-add:" s) as [rest|] eqn:Hafter;
    [|congruence].
  apply after_three_then_spec in Hafter as (a & b & c & -> & _).
  destruct rest as [|n [|sep rest]]; try congruence.
  destruct (digit n && dot sep) eqn:Hd; [|congruence].
  apply andb_prop in Hd as [Hn _].
  destruct (span word rest) as [w tail] eqn:Hw.
  apply span_spec in Hw as (-> & Hw & _).
  assert (Hword : forall ch, word ch = true -> word_or_dash ch = true).
  { intros ch Hch. unfold word_or_dash. rewrite Hch. reflexivity. }
  destruct w as [|w0 w]; [congruence|].
  destruct tail as [|d tail].
  { subst lang. exists a, b, c, n, sep, EmptyString.
    split; [reflexivity|]. split; [exact Hn|].
    eapply string_forall_impl; eassumption. }
  destruct (Ascii.eqb d "-") eqn:Hdash.
  2:{ subst lang. exists a, b, c, n, sep, (String d tail).
      split; [reflexivity|]. split; [exact Hn|].
      eapply string_forall_impl; eassumption. }
  destruct (span word tail) as [w' tail'] eqn:Hw'.
  apply span_spec in Hw' as (-> & Hw' & _).
  destruct w' as [|w0' w'].
  - subst lang. exists a, b, c, n, sep, (String d tail').
    split; [reflexivity|]. split; [exact Hn|].
    eapply string_forall_impl; eassumption.
  - subst lang. exists a, b, c, n, sep, tail'.
    split.
    + do 5 f_equal. rewrite append_assoc. reflexivity.
    + split; [exact Hn|].
      change (String w0 w +:+ String d (String w0' w'))
        with (String w0 w +:+ (String d EmptyString +:+ String w0' w')).
      rewrite !string_forall_app.
      rewrite (string_forall_impl word word_or_dash _ Hword Hw).
      rewrite (string_forall_impl word word_or_dash _ Hword Hw').
      simpl. unfold word_or_dash. rewrite Hdash. rewrite orb_true_r. reflexivity.
Qed.

Lemma regexp_extract_language_spec_witness :
  exists a b c n sep tail,
    "/* wbsetlabel-add:1|en-gb */ Harbour"
    = String a (String b (String c
        ("wbsetlabel-add:" +:+ String n (String sep ("en-gb" +:+ tail)))))
    /\ digit n = true
    /\ string_forall word_or_dash "en-gb" = true.
Proof.
  apply regexp_extract_language_spec.
  - vm_compute. reflexivity.
  - discriminate.
Defined.

(** * The first captions and the quarterly counts *)

Import FirstCaption Samples.

(** *** The order of strings *)

Lemma ascii_compare_trans_lt (a b c : ascii) :
  Ascii.compare a b = Lt -> Ascii.compare b c = Lt -> Ascii.compare a c = Lt.
Proof.
  unfold Ascii.compare. rewrite !N.compare_lt_iff. lia.
Qed.

Lemma ascii_compare_refl (a : ascii) : Ascii.compare a a = Eq.
Proof. unfold Ascii.compare. apply N.compare_refl. Qed.

Lemma string_compare_refl (s : string) : String.compare s s = Eq.
Proof.
  induction s as [|a s IH]; [reflexivity|].
  simpl. rewrite ascii_compare_refl. exact IH.
Qed.

Lemma string_compare_trans_not_gt (s1 s2 s3 : string) :
  String.compare s1 s2 <> Gt -> String.compare s2 s3 <> Gt ->
  String.compare s1 s3 <> Gt.
Proof.
  revert s2 s3. induction s1 as [|a s1 IH]; intros [|b s2] [|c s3]; simpl;
    try congruence.
  destruct (Ascii.compare a b) eqn:Hab; try congruence;
    destruct (Ascii.compare b c) eqn:Hbc; try congruence; intros H12 H23.
  - apply Ascii.compare_eq_iff in Hab, Hbc. subst.
    rewrite ascii_compare_refl. eapply IH; eassumption.
  - apply Ascii.compare_eq_iff in Hab. subst. rewrite Hbc. discriminate.
  - apply Ascii.compare_eq_iff in Hbc. subst. rewrite Hab. discriminate.
  - rewrite (ascii_compare_trans_lt a b c Hab Hbc). discriminate.
Qed.

Lemma string_leb_trans (s1 s2 s3 : string) :
  String.leb s1 s2 = true -> String.leb s2 s3 = true -> String.leb s1 s3 = true.
Proof.
  unfold String.leb. intros H12 H23.
  pose proof (string_compare_trans_not_gt s1 s2 s3) as H.
  destruct (String.compare s1 s2); destruct (String.compare s2 s3);
    destruct (String.compare s1 s3); try reflexivity; try discriminate;
    exfalso; apply H; congruence.
Qed.

Lemma string_leb_refl (s : string) : String.leb s s = true.
Proof. unfold String.leb. rewrite string_compare_refl. reflexivity. Qed.

Lemma string_ltb_false_leb (a b : string) :
  String.ltb b a = false -> String.leb a b = true.
Proof.
  unfold String.ltb, String.leb. rewrite (String.compare_antisym a b).
  destruct (String.compare b a); simpl; congruence.
Qed.

Lemma string_ltb_true_leb (a b : string) :
  String.ltb b a = true -> String.leb b a = true.
Proof.
  unfold String.ltb, String.leb. destruct (String.compare b a); congruence.
Qed.

Lemma min_string_spec (a b : string) :
  (min_string a b = a \/ min_string a b = b)
  /\ String.leb (min_string a b) a = true
  /\ String.leb (min_string a b) b = true.
Proof.
  unfold min_string. destruct (String.ltb b a) eqn:H.
  - split; [auto|]. split; [apply string_ltb_true_leb, H | apply string_leb_refl].
  - split; [auto|]. split; [apply string_leb_refl | apply string_ltb_false_leb, H].
Qed.

Lemma MIN_spec (x : string) (rest : list string) :
  MIN (x :: rest) ∈ x :: rest
  /\ forall y, y ∈ x :: rest -> String.leb (MIN (x :: rest)) y = true.
Proof.
  simpl. induction rest as [|z rest [IHin IHle]]; simpl.
  - split; [left|]. intros y Hy. apply list_elem_of_singleton in Hy. subst.
    apply string_leb_refl.
  - destruct (min_string_spec z (foldr min_string x rest)) as ([Hm|Hm] & Hz & Hacc).
    + split; [rewrite Hm; right; left|].
      intros y Hy. apply elem_of_cons in Hy as [->|Hy].
      * eapply string_leb_trans; [exact Hacc | apply IHle; left].
      * apply elem_of_cons in Hy as [->|Hy]; [exact Hz|].
        eapply string_leb_trans; [exact Hacc | apply IHle; right; exact Hy].
    + split.
      * rewrite Hm. apply elem_of_cons in IHin as [Heq|Hin];
          [rewrite Heq; left | right; right; exact Hin].
      * intros y Hy. apply elem_of_cons in Hy as [->|Hy].
        -- eapply string_leb_trans; [exact Hacc | apply IHle; left].
        -- apply elem_of_cons in Hy as [->|Hy]; [exact Hz|].
           eapply string_leb_trans; [exact Hacc | apply IHle; right; exact Hy].
Qed.

(** *** Keys of a grouping *)

Lemma elem_of_omap_id {A : Type} (l : list (option A)) (x : A) :
  x ∈ omap id l <-> Some x ∈ l.
Proof.
  rewrite list_elem_of_omap. split.
  - intros (o & Ho & Heq). simpl in Heq. subst. exact Ho.
  - intros H. exists (Some x). auto.
Qed.

Lemma NoDup_omap_id {A : Type} (l : list (option A)) :
  NoDup l -> NoDup (omap id l).
Proof.
  induction 1 as [|o l Hnotin Hnodup IH]; [constructor|].
  destruct o as [x|]; simpl; [|exact IH].
  constructor; [|exact IH]. rewrite elem_of_omap_id. exact Hnotin.
Qed.

Lemma length_NoDup_options {A : Type} `{EqDecision A} (l : list (option A)) :
  NoDup l ->
  length l = (length (omap id l) + if decide (None ∈ l) then 1 else 0)%nat.
Proof.
  induction 1 as [|o l Hnotin Hnodup IH]; [reflexivity|].
  assert (Hcons : forall o', None ∈ o' :: l <-> o' = None \/ None ∈ l).
  { intros o'. rewrite elem_of_cons. split; intros [H|H]; auto. }
  destruct o as [x|].
  - change (omap id (Some x :: l)) with (x :: omap id l).
    cbn [length]. rewrite IH.
    destruct (decide (None ∈ l)) as [Hin|Hout];
      destruct (decide (None ∈ Some x :: l)) as [Hin'|Hout']; try lia.
    + destruct Hout'. apply Hcons. auto.
    + apply Hcons in Hin' as [Heq|Hin']; [discriminate | contradiction].
  - change (omap id (None :: l)) with (omap id l).
    cbn [length]. rewrite IH.
    destruct (decide (None ∈ l)) as [Hin|Hout]; [contradiction|].
    destruct (decide (None ∈ None :: l)) as [_|Hout']; [lia|].
    destruct Hout'. apply Hcons. auto.
Qed.

Lemma page_ids_omap_keys (where_ : history_row -> bool) (table : list history_row) :
  page_ids where_ table
  = list_to_set
      (omap id (remove_dups (map page_id (filter (fun r => where_ r) table)))).
Proof.
  apply set_eq. intros x. unfold page_ids.
  rewrite !elem_of_list_to_set, elem_of_omap_id, elem_of_remove_dups,
    list_elem_of_omap, list_elem_of_fmap.
  split; intros (r & H1 & H2); exists r; auto.
Qed.

(** X13.  For parameter values without double quote and backslash,
    [nonenglish_first_captions] has one row for every page the non-English
    count counts, and one more row when a kept edit has no page id: the
    count skips NULL, the grouping does not. *)
Theorem length_nonenglish_first_captions (p : query_params) (table : list history_row) :
  literal_params p = true ->
  Z.of_nat (length (nonenglish_first_captions p table))
  = count_distinct_page_id (nonenglish_caption_where p) table
    + (if decide (None ∈ map page_id
                    (filter (fun r => nonenglish_caption_where p r) table))
       then 1 else 0).
Proof.
  intros _.
  unfold nonenglish_first_captions, count_distinct_page_id.
  rewrite length_map.
  set (kept := filter (fun r => nonenglish_caption_where p r) table).
  rewrite (length_NoDup_options (remove_dups (map page_id kept)))
    by apply NoDup_remove_dups.
  rewrite (page_ids_omap_keys (nonenglish_caption_where p) table).
  fold kept.
  rewrite size_list_to_set by apply NoDup_omap_id, NoDup_remove_dups.
  destruct (decide (None ∈ remove_dups (map page_id kept))) as [Hin|Hout];
    destruct (decide (None ∈ map page_id kept)) as [Hin'|Hout'].
  - rewrite Nat2Z.inj_add. reflexivity.
  - destruct (Hout' (proj1 (elem_of_remove_dups _ _) Hin)).
  - destruct (Hout (proj2 (elem_of_remove_dups _ _) Hin')).
  - rewrite Nat2Z.inj_add. reflexivity.
Qed.

(** *** Counting rows before a cutoff *)

Lemma length_filter_mono {A : Type} (P Q : A -> Prop)
    `{forall x, Decision (P x)} `{forall x, Decision (Q x)} (l : list A) :
  (forall x, P x -> Q x) ->
  (length (filter P l) <= length (filter Q l) <= length l)%nat.
Proof.
  intros HPQ. induction l as [|x l IH]; [simpl; lia|].
  rewrite !filter_cons.
  destruct (decide (P x)) as [HP|HP]; destruct (decide (Q x)) as [HQ|HQ];
    simpl; try lia.
  destruct HQ. apply HPQ, HP.
Qed.

(** X14.  The number of first captions before a cutoff grows with the
    cutoff and never exceeds the number of rows of the frame, whatever the
    conversion of the timestamps. *)
Theorem captioned_before_mono (to_datetime : string -> Z) (c1 c2 : Z)
    (df : list (option Z * string)) :
  c1 <= c2 ->
  (captioned_before to_datetime c1 df <= captioned_before to_datetime c2 df
   <= length df)%nat.
Proof.
  intros Hle. unfold captioned_before.
  apply length_filter_mono. intros row. lia.
Qed.

Lemma length_filter_map {A B : Type} (g : A -> B) (P : B -> Prop)
    `{forall y, Decision (P y)} (l : list A) :
  length (filter P (map g l)) = length (filter (fun x => P (g x)) l).
Proof.
  induction l as [|x l IH]; [reflexivity|].
  cbn [map]. rewrite !filter_cons.
  destruct (decide (P (g x))); simpl; rewrite IH; reflexivity.
Qed.

(** The first caption of a page that has a kept row is the timestamp of
    one of its kept rows and not later, as text, than any of them. *)
Lemma first_caption_spec (kept : list history_row) (k : option Z) (r0 : history_row) :
  r0 ∈ kept -> page_id r0 = k ->
  let first := MIN (map event_timestamp (filter (fun r => page_id r = k) kept)) in
  (exists r, r ∈ kept /\ page_id r = k /\ event_timestamp r = first)
  /\ (forall r, r ∈ kept -> page_id r = k ->
        String.leb first (event_timestamp r) = true).
Proof.
  intros Hr0 Hk first.
  assert (Hgroup : forall r, r ∈ filter (fun r => page_id r = k) kept
                             <-> page_id r = k /\ r ∈ kept).
  { intros r. exact (list_elem_of_filter (fun r => page_id r = k) kept r). }
  assert (Hin0 : event_timestamp r0
                 ∈ map event_timestamp (filter (fun r => page_id r = k) kept)).
  { apply list_elem_of_fmap. exists r0. split; [reflexivity|]. apply Hgroup. auto. }
  subst first.
  destruct (map event_timestamp (filter (fun r => page_id r = k) kept))
    as [|x rest] eqn:Hmap; [apply elem_of_nil in Hin0; destruct Hin0|].
  destruct (MIN_spec x rest) as [Hmin Hle].
  rewrite <- Hmap in Hmin, Hle. split.
  - apply list_elem_of_fmap in Hmin as (r & Hts & Hr).
    apply Hgroup in Hr as [Hid Hr]. exists r. rewrite <- Hmap. auto.
  - intros r Hr Hid. rewrite <- Hmap. apply Hle, list_elem_of_fmap.
    exists r. split; [reflexivity|]. apply Hgroup. auto.
Qed.

(** X15.  For parameter values without double quote and backslash: when
    the conversion of timestamps respects their order as text on the rows
    of the table, the number of first captions before a cutoff is the
    number of distinct page ids (NULL included) that have a kept
    non-English caption edit before the cutoff. *)
Theorem captioned_before_pages (to_datetime : string -> Z) (cutoff : Z)
    (p : query_params) (table : list history_row) :
  literal_params p = true ->
  (forall r1 r2, r1 ∈ table -> r2 ∈ table ->
     String.leb (event_timestamp r1) (event_timestamp r2) = true ->
     to_datetime (event_timestamp r1) <= to_datetime (event_timestamp r2)) ->
  captioned_before to_datetime cutoff (nonenglish_first_captions p table)
  = length
      (remove_dups
         (map page_id
            (filter (fun r => nonenglish_caption_where p r
                              /\ to_datetime (event_timestamp r) < cutoff)
               table))).
Proof.
  intros _ Hmono. unfold captioned_before, nonenglish_first_captions.
  set (kept := filter (fun r => nonenglish_caption_where p r) table).
  assert (Hkept : forall r, r ∈ kept <-> nonenglish_caption_where p r /\ r ∈ table).
  { intros r.
    exact (list_elem_of_filter (fun r => nonenglish_caption_where p r) table r). }
  rewrite (length_filter_map
             (fun k => (k, MIN (map event_timestamp
                                  (filter (fun r => page_id r = k) kept))))
             (fun row => to_datetime row.2 < cutoff)).
  apply Permutation_length, NoDup_Permutation.
  - apply NoDup_filter, NoDup_remove_dups.
  - apply NoDup_remove_dups.
  - intros k. rewrite list_elem_of_filter, !elem_of_remove_dups, !list_elem_of_fmap.
    cbn [snd]. split.
    + intros [Hbefore (r0 & Hk & Hr0)]. symmetry in Hk.
      destruct (first_caption_spec kept k r0 Hr0 Hk) as [(r & Hr & Hid & Hts) _].
      cbv zeta in Hts. rewrite <- Hts in Hbefore.
      exists r. split; [symmetry; exact Hid|].
      apply list_elem_of_filter. apply Hkept in Hr as [Hw Hr]. auto.
    + intros (r & Hk & Hr). symmetry in Hk.
      apply list_elem_of_filter in Hr as [[Hw Hbefore] Hr].
      assert (Hrk : r ∈ kept) by (apply Hkept; auto).
      split; [|exists r; auto].
      destruct (first_caption_spec kept k r Hrk Hk) as [(r' & Hr' & _ & Hts) Hle].
      cbv zeta in Hts, Hle. specialize (Hle r Hrk Hk).
      rewrite <- Hts in Hle |- *.
      apply Hkept in Hr' as [_ Hr'].
      specialize (Hmono r' r Hr' Hr Hle). lia.
Qed.

(** The WHERE clause of [nonenglish_first_caption_query] is, line by
    line, the one of the non-English count. *)
Example first_caption_where_lines :
  where_lines Templates.nonenglish_first_caption_query
  = where_lines Templates.nonenglish_caption_count_query ++ ["GROUP BY page_id"].
Proof. vm_compute. reflexivity. Qed.



Lemma captioned_before_mono_witness :
  (captioned_before digits_value end_of_Q1
     (nonenglish_first_captions configured_params dated_edits)
   <= captioned_before digits_value end_of_Q2
        (nonenglish_first_captions configured_params dated_edits)
   <= length (nonenglish_first_captions configured_params dated_edits))%nat.
Proof.
  apply captioned_before_mono. vm_compute. discriminate.
Defined.


Lemma digits_value_ordered (r1 r2 : history_row) :
  r1 ∈ dated_edits -> r2 ∈ dated_edits ->
  String.leb (event_timestamp r1) (event_timestamp r2) = true ->
  digits_value (event_timestamp r1) <= digits_value (event_timestamp r2).
Proof.
  unfold dated_edits. intros H1 H2.
  repeat (apply elem_of_cons in H1 as [->|H1]);
    try (apply elem_of_nil in H1; destruct H1);
    repeat (apply elem_of_cons in H2 as [->|H2]);
    try (apply elem_of_nil in H2; destruct H2);
    vm_compute; intros Hle; try discriminate Hle; intros Hgt; discriminate Hgt.
Defined.

Lemma captioned_before_pages_witness :
  captioned_before digits_value end_of_Q1
    (nonenglish_first_captions configured_params dated_edits)
  = length
      (remove_dups
         (map page_id
            (filter (fun r => nonenglish_caption_where configured_params r
                              /\ digits_value (event_timestamp r) < end_of_Q1)
               dated_edits))).
Proof.
  apply captioned_before_pages;
    [vm_compute; reflexivity | exact digits_value_ordered].
Defined.

Lemma length_nonenglish_first_captions_witness :
  Z.of_nat (length (nonenglish_first_captions configured_params dated_edits))
  = count_distinct_page_id (nonenglish_caption_where configured_params) dated_edits
    + (if decide (None ∈ map page_id
                    (filter (fun r => nonenglish_caption_where configured_params r)
                       dated_edits))
       then 1 else 0).
Proof.
  apply (length_nonenglish_first_captions configured_params dated_edits).
  vm_compute. reflexivity.
Defined.

(** On [dated_edits]: two first captions before the end of the first
    quarter, three before the end of the second. *)
Example quarterly_counts_evaluated :
  captioned_before digits_value end_of_Q1
    (nonenglish_first_captions configured_params dated_edits) = 2%nat
  /\ captioned_before digits_value end_of_Q2
       (nonenglish_first_captions configured_params dated_edits) = 3%nat.
Proof. split; vm_compute; reflexivity. Qed.

(** * Further properties of the cell on frames *)

(** X17.  On int64 columns of one length the arithmetic of the cell works
    row by row: every entry is the int64 value of the sum of the first two
    entries less the third, the wrap-around of the intermediate sum
    cancelling in every row. *)
Theorem pairwise_overlap_elementwise (xs ys zs : list Z) :
  length xs = length ys -> length ys = length zs ->
  pairwise_overlap (Int64 xs) (Int64 ys) (Int64 zs)
  = Returns
      (Int64 (zip_with (fun s z => wrap64 (s - z)) (zip_with Z.add xs ys) zs)).
Proof.
  intros Hxy Hyz. unfold pairwise_overlap, add, sub, arith.
  rewrite decide_True by exact Hxy. simpl.
  rewrite decide_True by (rewrite length_zip_with; lia).
  do 2 f_equal. clear Hxy Hyz. revert ys zs.
  induction xs as [|x xs IH]; intros [|y ys] [|z zs]; simpl; try reflexivity.
  rewrite wrap64_sub_l, IH. reflexivity.
Qed.

Lemma pairwise_overlap_elementwise_witness :
  pairwise_overlap (Int64 [731900; 2013]) (Int64 [776401; 17])
    (Int64 [1365092; 2013])
  = Returns
      (Int64 (zip_with (fun s z => wrap64 (s - z))
                (zip_with Z.add [731900; 2013] [776401; 17]) [1365092; 2013])).
Proof.
  apply pairwise_overlap_elementwise; reflexivity.
Defined.

(** * Properties of [claim_query] *)

Import ClaimActions.

Lemma claim_comment_split (s : string) :
  rlike_claim s = true ->
  exists a b c tail,
    s = String a (String b (String c
          (claim_action s +:+ "-" +:+ claim_subaction s +:+ ":" +:+ tail)))
    /\ String.prefix "wb" (claim_action s) = true
    /\ string_forall not_dash (claim_action s) = true
    /\ string_forall not_colon (claim_subaction s) = true
    /\ claim_subaction s <> EmptyString.
Proof.
  unfold rlike_claim, claim_subaction, claim_action, subaction_match.
  intros H. apply bool_decide_eq_true in H. destruct H as [sub H].
  destruct (after_three_then "wb" s) as [rest|] eqn:Hafter; [|discriminate].
  apply after_three_then_spec in Hafter as (a & b & c & -> & _).
  destruct (span not_dash rest) as [run tail] eqn:Hrun.
  apply span_spec in Hrun as (-> & Hrun & _).
  destruct run as [|r0 run]; [discriminate|].
  destruct tail as [|dash tail]; [discriminate|].
  destruct (Ascii.eqb dash "-") eqn:Hdash; [|discriminate].
  apply Ascii.eqb_eq in Hdash. subst dash.
  destruct (span not_colon tail) as [sub' tail'] eqn:Hsub.
  apply span_spec in Hsub as (-> & Hsub & _).
  destruct sub' as [|s0 sub']; [discriminate|].
  destruct tail' as [|colon tail']; [discriminate|].
  destruct (Ascii.eqb colon ":") eqn:Hcolon; [|discriminate].
  apply Ascii.eqb_eq in Hcolon. subst colon.
  injection H as <-.
  exists a, b, c, tail'. cbn [default].
  split; [reflexivity|].
  split; [reflexivity|]. split; [exact Hrun|]. split; [exact Hsub | discriminate].
Qed.

(** X18.  A comment the WHERE clause of [claim_query] keeps is made of
    three characters, the extracted action, a dash, the extracted
    subaction, a colon and a rest; the action starts with [wb] and holds no
    dash, the subaction holds no colon and is not empty. *)
Theorem claim_comment_decomposition (s : string) :
  rlike_claim s = true ->
  exists a b c tail,
    s = String a (String b (String c
          (claim_action s +:+ "-" +:+ claim_subaction s +:+ ":" +:+ tail)))
    /\ String.prefix "wb" (claim_action s) = true
    /\ string_forall not_dash (claim_action s) = true
    /\ string_forall not_colon (claim_subaction s) = true
    /\ claim_subaction s <> EmptyString.
Proof. exact (claim_comment_split s). Qed.

Lemma claim_comment_decomposition_witness :
  exists a b c tail,
    "/* wbeditentity-update-languages:0|| */"
    = String a (String b (String c
        (claim_action "/* wbeditentity-update-languages:0|| */" +:+ "-"
         +:+ claim_subaction "/* wbeditentity-update-languages:0|| */" +:+ ":"
         +:+ tail)))
    /\ String.prefix "wb" (claim_action "/* wbeditentity-update-languages:0|| */")
       = true
    /\ string_forall not_dash
         (claim_action "/* wbeditentity-update-languages:0|| */") = true
    /\ string_forall not_colon
         (claim_subaction "/* wbeditentity-update-languages:0|| */") = true
    /\ claim_subaction "/* wbeditentity-update-languages:0|| */" <> EmptyString.
Proof.
  apply claim_comment_decomposition. vm_compute. reflexivity.
Defined.

(** What the two extracts are on kinds of comments that the recorded
    output of [claim_counts] lists. *)
Example claim_extracts_evaluated :
  (claim_action "/* wbeditentity-update-languages:0|| */",
   claim_subaction "/* wbeditentity-update-languages:0|| */")
  = ("wbeditentity", "update-languages")
  /\ (claim_action "/* wbsetlabel-add:1|en */ Town hall",
      claim_subaction "/* wbsetlabel-add:1|en */ Town hall")
     = ("wbsetlabel", "add").
Proof. split; vm_compute; reflexivity. Qed.

(** X19.  The caption additions that the count queries select with
    ["^...wbsetlabel-add:"] are exactly the edits that [claim_query] keeps
    and files under the action [wbsetlabel] and the subaction [add]. *)
Theorem label_add_is_claim_wbsetlabel_add (s : string) :
  rlike_label_add_colon s = true
  <-> rlike_claim s = true
      /\ claim_action s = "wbsetlabel" /\ claim_subaction s = "add".
Proof.
  split.
  - unfold rlike_label_add_colon. intros H.
    apply bool_decide_eq_true in H as [t H].
    apply after_three_then_spec in H as (a & b & c & -> & Hdots).
    unfold rlike_claim, claim_action, claim_subaction, subaction_match,
      after_three_then.
    rewrite Hdots. split; [|split]; reflexivity.
  - intros (Hclaim & Haction & Hsub).
    destruct (claim_comment_split s Hclaim) as (a & b & c & tail & Hs & _).
    rewrite Haction, Hsub in Hs.
    assert (Hdots : dot a && dot b && dot c = true).
    { unfold rlike_claim, subaction_match, after_three_then in Hclaim.
      apply bool_decide_eq_true in Hclaim as [x Hx].
      rewrite Hs in Hx.
      destruct (dot a && dot b && dot c); [reflexivity | discriminate]. }
    rewrite Hs. unfold rlike_label_add_colon, after_three_then.
    rewrite Hdots. apply bool_decide_eq_true. eexists. reflexivity.
Qed.

Lemma sum_indicator {K : Type} `{EqDecision K} (k0 : K) (ks : list K) :
  NoDup ks -> k0 ∈ ks ->
  sum_list (map (fun k => if decide (k0 = k) then 1%nat else 0%nat) ks) = 1%nat.
Proof.
  induction 1 as [|k ks Hnotin Hnodup IH]; intros Hin.
  - apply elem_of_nil in Hin. destruct Hin.
  - simpl. destruct (decide (k0 = k)) as [->|Hne].
    + assert (Hzero : sum_list (map (fun k' => if decide (k = k') then 1%nat else 0%nat) ks)
                      = 0%nat).
      { clear IH Hin Hnodup. induction ks as [|k' ks IH]; [reflexivity|].
        simpl. apply not_elem_of_cons in Hnotin as [Hne Hnotin].
        destruct (decide (k = k')); [contradiction|]. apply IH, Hnotin. }
      rewrite Hzero. reflexivity.
    + apply elem_of_cons in Hin as [Heq|Hin]; [contradiction|].
      apply IH, Hin.
Qed.

Lemma sum_list_map_add {K : Type} (g h : K -> nat) (ks : list K) :
  sum_list (map (fun k => (g k + h k)%nat) ks)
  = (sum_list (map g ks) + sum_list (map h ks))%nat.
Proof. induction ks as [|k ks IH]; simpl; [reflexivity | rewrite IH; lia]. Qed.

(** Counting the elements of [l] group by group, over any duplicate-free
    list of keys that holds every key of [l], counts each element once. *)
Lemma group_counts_sum {A K : Type} `{EqDecision K} (f : A -> K) (l : list A)
    (ks : list K) :
  NoDup ks -> (forall x, x ∈ l -> f x ∈ ks) ->
  sum_list (map (fun k => length (filter (fun x => f x = k) l)) ks) = length l.
Proof.
  intros Hnodup. induction l as [|x l IH]; intros Hks.
  - clear Hnodup Hks. induction ks as [|k ks IHks]; [reflexivity|].
    simpl. exact IHks.
  - rewrite (map_ext _
      (fun k => ((if decide (f x = k) then 1 else 0)
                 + length (filter (fun y => f y = k) l))%nat)).
    2:{ intros k. rewrite filter_cons. destruct (decide (f x = k)); reflexivity. }
    rewrite sum_list_map_add, sum_indicator, IH; simpl; auto.
    + intros y Hy. apply Hks. right. exact Hy.
    + apply Hks. left.
Qed.

Lemma claim_counts_sum (p : query_params) (table : list history_row) :
  foldr Z.add 0 (map snd (claim_counts p table))
  = Z.of_nat (length (filter (fun r => claim_where p r) table)).
Proof.
  unfold claim_counts.
  set (kept := filter (fun r => claim_where p r) table).
  rewrite <- (group_counts_sum claim_key kept (remove_dups (map claim_key kept))).
  - induction (remove_dups (map claim_key kept)) as [|k ks IH]; [reflexivity|].
    simpl. simpl in IH. rewrite IH. lia.
  - apply NoDup_remove_dups.
  - intros x Hx. apply elem_of_remove_dups, list_elem_of_fmap. eauto.
Qed.

Lemma claim_counts_keys (p : query_params) (table : list history_row) :
  map fst (claim_counts p table)
  = remove_dups (map claim_key (filter (fun r => claim_where p r) table)).
Proof.
  unfold claim_counts.
  induction (remove_dups _) as [|k ks IH]; [reflexivity|].
  simpl. rewrite IH. destruct k; reflexivity.
Qed.

(** X20.  For parameter values without double quote and backslash,
    [claim_counts] files every kept edit under exactly one pair of action
    and subaction: the pairs of its rows are distinct, no row has a count
    below one, and the counts add up to the number of kept edits. *)
Theorem claim_counts_partition (p : query_params) (table : list history_row) :
  literal_params p = true ->
  foldr Z.add 0 (map snd (claim_counts p table))
  = Z.of_nat (length (filter (fun r => claim_where p r) table))
  /\ NoDup (map fst (claim_counts p table))
  /\ Forall (fun row => 1 <= row.2) (claim_counts p table).
Proof.
  intros _.
  split; [apply claim_counts_sum|]. split.
  - rewrite claim_counts_keys. apply NoDup_remove_dups.
  - unfold claim_counts.
    set (kept := filter (fun r => claim_where p r) table).
    apply Forall_forall. intros row Hrow.
    apply list_elem_of_fmap in Hrow as (k & -> & Hk).
    apply elem_of_remove_dups, list_elem_of_fmap in Hk as (r & Hkey & Hr).
    cbn [snd].
    assert (Hin : r ∈ filter (fun r' => claim_key r' = k) kept).
    { apply list_elem_of_filter. auto. }
    destruct (filter (fun r' => claim_key r' = k) kept); [|simpl; lia].
    apply elem_of_nil in Hin. destruct Hin.
Qed.

Lemma claim_counts_partition_witness :
  foldr Z.add 0 (map snd (claim_counts configured_params captioned_pages))
  = Z.of_nat
      (length (filter (fun r => claim_where configured_params r) captioned_pages))
  /\ NoDup (map fst (claim_counts configured_params captioned_pages))
  /\ Forall (fun row => 1 <= row.2) (claim_counts configured_params captioned_pages).
Proof.
  apply (claim_counts_partition configured_params captioned_pages).
  vm_compute. reflexivity.
Defined.

(** On [captioned_pages]: four kept edits, all under one pair. *)
Example claim_counts_evaluated :
  claim_counts configured_params captioned_pages = [(("wbsetlabel", "add"), 4)].
Proof. vm_compute. reflexivity. Qed.

(** * Properties of [caption_query] and [bot_caption_add_query] *)

Import CaptionEdits.

(** What the three tests of [caption_query]'s SELECT list and the test of
    [bot_caption_add_query] say of a comment that [caption_query] keeps. *)
Lemma label_change_cases (c : string) :
  rlike_label_change c = true ->
  (rlike_label_add c = true /\ rlike_label_set c = false
   /\ rlike_label_remove c = false /\ rlike_label_add_colon c = true)
  \/ (rlike_label_add c = false /\ rlike_label_set c = true
      /\ rlike_label_remove c = false /\ rlike_label_add_colon c = false)
  \/ (rlike_label_add c = false /\ rlike_label_set c = false
      /\ rlike_label_remove c = true /\ rlike_label_add_colon c = false).
Proof.
  unfold rlike_label_change. intros H.
  destruct (after_three_then "wbsetlabel-" c) as [rest|] eqn:Hafter; [|discriminate].
  apply after_three_then_spec in Hafter as (a & b & d & -> & Hdots).
  unfold rlike_label_add, rlike_label_set, rlike_label_remove,
    rlike_label_add_colon, after_three_then.
  rewrite Hdots.
  apply orb_prop in H as [H|H]; [apply orb_prop in H as [H|H]|];
    apply bool_decide_eq_true in H as [t H];
    apply strip_prefix_spec in H; subst rest;
    [left | right; left | right; right]; repeat split; reflexivity.
Qed.

Lemma label_add_colon_is_change (c : string) :
  rlike_label_add_colon c = rlike_label_change c && rlike_label_add c.
Proof.
  destruct (rlike_label_change c) eqn:Hchange.
  - destruct (label_change_cases c Hchange)
      as [(-> & _ & _ & ->)|[(-> & _ & _ & ->)|(-> & _ & _ & ->)]]; reflexivity.
  - simpl. unfold rlike_label_add_colon.
    apply bool_decide_eq_false. intros [t Ht].
    apply after_three_then_spec in Ht as (a & b & d & -> & Hdots).
    unfold rlike_label_change, after_three_then in Hchange.
    rewrite Hdots in Hchange. vm_compute in Hchange. discriminate.
Qed.

Lemma bot_caption_add_where_spec (r : history_row) :
  bot_caption_add_where r = caption_where r && comment_is rlike_label_add r.
Proof.
  unfold bot_caption_add_where, caption_where, comment_is.
  destruct (event_comment r) as [c|]; [|rewrite !andb_false_r; reflexivity].
  rewrite (label_add_colon_is_change c), !andb_assoc. reflexivity.
Qed.

Lemma filter_filter_andb {A : Type} (f g : A -> bool) (l : list A) :
  filter (fun x => g x) (filter (fun x => f x) l) = filter (fun x => f x && g x) l.
Proof.
  induction l as [|x l IH]; [reflexivity|].
  rewrite !filter_cons.
  destruct (f x) eqn:Hf; simpl.
  - rewrite filter_cons. destruct (g x); simpl; rewrite IH; reflexivity.
  - exact IH.
Qed.

Lemma filter_ext_bool {A : Type} (f g : A -> bool) (l : list A) :
  (forall x, f x = g x) -> filter (fun x => f x) l = filter (fun x => g x) l.
Proof.
  intros H. induction l as [|x l IH]; [reflexivity|].
  rewrite !filter_cons, IH, (H x). reflexivity.
Qed.

Lemma length_filter_three {A : Type} (f g h : A -> bool) (l : list A) :
  (forall x, x ∈ l ->
     (f x = true /\ g x = false /\ h x = false)
     \/ (f x = false /\ g x = true /\ h x = false)
     \/ (f x = false /\ g x = false /\ h x = true)) ->
  (length (filter (fun x => f x) l) + length (filter (fun x => g x) l)
   + length (filter (fun x => h x) l) = length l)%nat.
Proof.
  induction l as [|x l IH]; intros H; [reflexivity|].
  rewrite !filter_cons.
  specialize (IH (fun y Hy => H y (list_elem_of_further _ _ _ Hy))).
  destruct (H x (list_elem_of_here _ _))
    as [(-> & -> & ->)|[(-> & -> & ->)|(-> & -> & ->)]]; simpl; lia.
Qed.

(** X21.  [caption_query] counts every edit it keeps in exactly one of
    [num_adds], [num_mods] and [num_dels]: when a row is kept the three sums
    add up to the number of kept rows, and when none is kept all three are
    NULL. *)
Theorem label_counts_partition (table : list edit_row) :
  match label_counts table with
  | (Some num_adds, Some num_mods, Some num_dels) =>
      num_adds + num_mods + num_dels
      = Z.of_nat (length (filter (fun r => caption_where (base r)) table))
      /\ 0 < num_adds + num_mods + num_dels
  | (None, None, None) => filter (fun r => caption_where (base r)) table = []
  | _ => False
  end.
Proof.
  unfold label_counts.
  set (kept := filter (fun r => caption_where (base r)) table).
  assert (Hkept : forall r, r ∈ kept -> caption_where (base r) = true).
  { intros r Hr. apply list_elem_of_filter in Hr as [Hw _].
    apply Is_true_true. exact Hw. }
  pose proof (length_filter_three
                (fun r => comment_is rlike_label_add (base r))
                (fun r => comment_is rlike_label_set (base r))
                (fun r => comment_is rlike_label_remove (base r)) kept) as Hsum.
  assert (Hcases : forall r, r ∈ kept ->
            (comment_is rlike_label_add (base r) = true
             /\ comment_is rlike_label_set (base r) = false
             /\ comment_is rlike_label_remove (base r) = false)
            \/ (comment_is rlike_label_add (base r) = false
                /\ comment_is rlike_label_set (base r) = true
                /\ comment_is rlike_label_remove (base r) = false)
            \/ (comment_is rlike_label_add (base r) = false
                /\ comment_is rlike_label_set (base r) = false
                /\ comment_is rlike_label_remove (base r) = true)).
  { intros r Hr. specialize (Hkept r Hr). unfold caption_where in Hkept.
    apply andb_prop in Hkept as [_ Hc]. unfold comment_is in *.
    destruct (event_comment (base r)) as [c|]; [|discriminate].
    destruct (label_change_cases c Hc) as [H|[H|H]]; tauto. }
  specialize (Hsum Hcases).
  destruct kept as [|r0 kept']; [reflexivity|].
  assert (Hpos : (0 < length (r0 :: kept'))%nat) by (simpl; lia).
  unfold sum_if. split; lia.
Qed.

Lemma sum_if_nonempty {A : Type} (cond : A -> bool) (kept : list A) :
  kept <> [] ->
  sum_if cond kept = Some (Z.of_nat (length (filter (fun r => cond r) kept))).
Proof. destruct kept; [congruence | reflexivity]. Qed.

Lemma bot_kept_spec (table : list edit_row) :
  filter (fun r => bot_caption_add_where (base r)) table
  = filter (fun r => comment_is rlike_label_add (base r))
      (filter (fun r => caption_where (base r)) table).
Proof.
  rewrite (filter_filter_andb (fun r => caption_where (base r))
             (fun r => comment_is rlike_label_add (base r))).
  apply filter_ext_bool. intros r. apply bot_caption_add_where_spec.
Qed.

Lemma filter_bool_decide {A : Type} (P : A -> Prop) `{forall x, Decision (P x)}
    (l : list A) :
  filter (fun x => bool_decide (P x)) l = filter P l.
Proof.
  induction l as [|x l IH]; [reflexivity|].
  rewrite !filter_cons, IH.
  destruct (decide (P x)) as [Hp|Hp].
  - rewrite bool_decide_eq_true_2 by exact Hp. reflexivity.
  - rewrite bool_decide_eq_false_2 by exact Hp. reflexivity.
Qed.

(** X22.  [bot_caption_add_query] keeps exactly the edits that
    [caption_query] counts as [num_adds]; when it keeps a row,
    [num_bot_edits] and [num_nonbot_edits] fall short of [num_adds] by the
    number of kept rows whose [event_user_is_bot_by_historical] is NULL. *)
Theorem bot_counts_add_up_to_num_adds (table : list edit_row) :
  filter (fun r => bot_caption_add_where (base r)) table <> [] ->
  exists num_adds num_bot_edits num_nonbot_edits,
    (label_counts table).1.1 = Some num_adds
    /\ (botadded_captions_counts table).1.1 = Some num_bot_edits
    /\ (botadded_captions_counts table).1.2 = Some num_nonbot_edits
    /\ num_adds
       = Z.of_nat (length (filter (fun r => bot_caption_add_where (base r)) table))
    /\ num_bot_edits + num_nonbot_edits
       + Z.of_nat
           (length (filter (fun r => event_user_is_bot_by_historical r = None)
                      (filter (fun r => bot_caption_add_where (base r)) table)))
       = num_adds.
Proof.
  set (kept := filter (fun r => bot_caption_add_where (base r)) table).
  intros Hne.
  unfold label_counts, botadded_captions_counts. fold kept. cbn [fst snd].
  assert (Hrows : filter (fun r => caption_where (base r)) table <> []).
  { intros Hnil. apply Hne. subst kept. rewrite bot_kept_spec, Hnil. reflexivity. }
  rewrite (sum_if_nonempty _ _ Hrows), !(sum_if_nonempty _ _ Hne).
  rewrite <- bot_kept_spec. fold kept.
  eexists _, _, _. split; [reflexivity|]. split; [reflexivity|].
  split; [reflexivity|]. split; [reflexivity|].
  pose proof (length_filter_three
                (fun r => 0 <? hive_size (event_user_is_bot_by_historical r))
                (fun r => hive_size (event_user_is_bot_by_historical r) =? 0)
                (fun r => bool_decide (event_user_is_bot_by_historical r = None))
                kept) as Hsum.
  cbv beta in Hsum.
  rewrite (filter_bool_decide
             (fun r => event_user_is_bot_by_historical r = None) kept) in Hsum.
  rewrite <- Hsum; [lia|].
  intros r _. unfold hive_size.
  destruct (event_user_is_bot_by_historical r) as [[|x l]|];
    [right; left | left | right; right]; repeat split; reflexivity.
Qed.

Lemma bot_counts_add_up_to_num_adds_witness :
  exists num_adds num_bot_edits num_nonbot_edits,
    (label_counts logged_edits).1.1 = Some num_adds
    /\ (botadded_captions_counts logged_edits).1.1 = Some num_bot_edits
    /\ (botadded_captions_counts logged_edits).1.2 = Some num_nonbot_edits
    /\ num_adds
       = Z.of_nat
           (length (filter (fun r => bot_caption_add_where (base r)) logged_edits))
    /\ num_bot_edits + num_nonbot_edits
       + Z.of_nat
           (length (filter (fun r => event_user_is_bot_by_historical r = None)
                      (filter (fun r => bot_caption_add_where (base r))
                         logged_edits)))
       = num_adds.
Proof.
  apply (bot_counts_add_up_to_num_adds logged_edits).
  vm_compute. discriminate.
Defined.

(** On [logged_edits]: three adds, one change and one removal; of the adds
    one is by a bot, one by a person and one has a NULL array. *)
Example logged_edits_evaluated :
  label_counts logged_edits = (Some 3, Some 1, Some 1)
  /\ botadded_captions_counts logged_edits = (Some 1, Some 1, Some 1).
Proof. split; vm_compute; reflexivity. Qed.

(** The two query texts have the same WHERE lines up to the test of
    [event_comment]. *)
Example caption_queries_where_lines :
  filter_lines PlainQueries.caption_query
  = filter_lines PlainQueries.bot_caption_add_query
  /\ event_comment_lines PlainQueries.caption_query
     = ["AND event_comment REGEXP "
        +:+ Templates.quoted "^...wbsetlabel-(add|set|remove):"]
  /\ event_comment_lines PlainQueries.bot_caption_add_query
     = ["AND event_comment REGEXP " +:+ Templates.quoted "^...wbsetlabel-add:"].
Proof.
  repeat match goal with |- _ /\ _ => split end; vm_compute; reflexivity.
Qed.

(** * The bug-checking query *)

Import BugCheck.

(** The bug-checking query and the non-English count have the same WHERE
    lines up to the test of the extracted language code. *)
Example bug_check_where_lines :
  take 10 (where_lines bug_check_query)
  = take 10 (where_lines Templates.nonenglish_caption_count_query)
  /\ drop 10 (where_lines bug_check_query)
     = [ "    NOT IN (" +:+ Templates.quoted "simple" +:+ ", "
         +:+ Templates.quoted "en" +:+ ")";
         "LIMIT 250" ].
Proof. split; vm_compute; reflexivity. Qed.

(** X23.  For parameter values without double quote and backslash, every
    row the non-English count keeps is a row the bug-checking query may
    return: a language code that does not match the English pattern is
    neither [simple] nor [en]. *)
Theorem bug_check_keeps_nonenglish (p : query_params) (r : history_row) :
  literal_params p = true ->
  nonenglish_caption_where p r = true -> bug_check_where p r = true.
Proof.
  unfold nonenglish_caption_where, bug_check_where. intros _ H.
  apply andb_prop in H as [Hbase Hlang]. rewrite Hbase. cbn [andb].
  unfold comment_is in *.
  destruct (event_comment r) as [c|]; [|discriminate].
  unfold not_in_simple_en.
  destruct (String.eqb_spec (regexp_extract_language c) "simple") as [E|_];
    [rewrite E in Hlang; vm_compute in Hlang; discriminate|].
  destruct (String.eqb_spec (regexp_extract_language c) "en") as [E|_];
    [rewrite E in Hlang; vm_compute in Hlang; discriminate|].
  reflexivity.
Qed.

Lemma bug_check_keeps_nonenglish_witness :
  bug_check_where configured_params
    (caption_edit "/* wbsetlabel-add:1|de */ Rathaus" 1) = true.
Proof.
  apply (bug_check_keeps_nonenglish configured_params
           (caption_edit "/* wbsetlabel-add:1|de */ Rathaus" 1));
    vm_compute; reflexivity.
Defined.

(** The converse fails: a British English caption is not counted as
    non-English, and the bug-checking query may return it. *)
Example bug_check_keeps_english_variant :
  bug_check_where configured_params
    (caption_edit "/* wbsetlabel-add:1|en-gb */ Harbour" 3) = true
  /\ nonenglish_caption_where configured_params
       (caption_edit "/* wbsetlabel-add:1|en-gb */ Harbour" 3) = false.
Proof. split; vm_compute; reflexivity. Qed.
